(** * Audio services: the /tts and /transcribe/ handlers of main.py

    A shallow embedding of the two FastAPI request handlers of [main.py]
    (speech synthesis with the Kokoro pipeline, transcription with Whisper)
    and the properties of their boundary contract.

    The handlers are glue around third-party components.  Those components
    are not part of the program; they appear here as what the handlers
    observe of them:
    - the synthesis pipeline is a callable that returns a generator,
    - [soundfile.write] is an encoder from samples to bytes,
    - the transcription model maps a file path to a result dictionary,
    - the file system is a finite map from paths to file contents.
    Every external call may raise, as in Python. *)

From Stdlib Require Import ZArith NArith Ascii Lia.
From stdpp Require Import base gmap list strings.

Local Open Scope Z_scope.

(** ** Python values *)

(** A Python [str] is a sequence of Unicode code points. *)
Abbreviation str := (list N).

(** [lit "..."] is the [str] of a string literal of the source. *)
Fixpoint lit (s : string) : str :=
  match s with
  | EmptyString => []
  | String c rest => Ascii.N_of_ascii c :: lit rest
  end.

(** [bytes] objects. *)
Abbreviation bytes := (list Byte.byte).

(** [ch.isspace()] on one code point: CPython's [Py_UNICODE_ISSPACE]
    (the ASCII table below 128, [_PyUnicode_IsWhitespace] above). *)
Definition isspace (ch : N) : bool :=
  ((9 <=? ch) && (ch <=? 13) ||
   (28 <=? ch) && (ch <=? 32) ||
   (ch =? 133) || (ch =? 160) || (ch =? 5760) ||
   (8192 <=? ch) && (ch <=? 8202) ||
   (ch =? 8232) || (ch =? 8233) || (ch =? 8239) ||
   (ch =? 8287) || (ch =? 12288))%N.

(** [s.lstrip()]: drop the leading white space. *)
Fixpoint lstrip (s : str) : str :=
  match s with
  | [] => []
  | ch :: rest => if isspace ch then lstrip rest else s
  end.

(** [s.rstrip()]: drop the trailing white space. *)
Definition rstrip (s : str) : str := reverse (lstrip (reverse s)).

(** [s.strip()] with no argument. *)
Definition strip (s : str) : str := rstrip (lstrip s).

(** [s.startswith(prefix)]. *)
Fixpoint startswith (s prefix : str) : bool :=
  match prefix, s with
  | [], _ => true
  | _ :: _, [] => false
  | p :: prefix', ch :: s' => (p =? ch)%N && startswith s' prefix'
  end.

(** "empty or whitespace-only" text. *)
Definition blank (s : str) : bool := forallb isspace s.

(** ** Exceptions *)

(** An exception raised by Python or by a library.  [exc_is_Exception]
    tells whether its class derives from [Exception] (what a clause
    [except Exception] catches); [KeyboardInterrupt], [SystemExit] and
    [asyncio.CancelledError] do not.  [exc_str] is [str(e)], what an
    f-string interpolates. *)
Record pyexc := PyExc {
  exc_class : str;
  exc_is_Exception : bool;
  exc_str : str
}.

Definition AttributeError (msg : str) : pyexc := PyExc (lit "AttributeError") true msg.
Definition KeyError (msg : str) : pyexc := PyExc (lit "KeyError") true msg.
Definition ValueError (msg : str) : pyexc := PyExc (lit "ValueError") true msg.
Definition FileExistsError (msg : str) : pyexc := PyExc (lit "FileExistsError") true msg.

(** ** The world the handlers act on *)

(** What a handler does to its environment besides the file system:
    the calls it makes to the models and what it prints. *)
Inductive event :=
| Printed (line : str)               (* print(line) *)
| TtsCalled (text voice : str)       (* tts_pipeline(text, voice=voice) *)
| GenNext                            (* the generator was advanced once *)
| SfWriteCalled (samplerate : Z) (format : str)   (* sf.write(buffer, _, samplerate, format=format) *)
| AsrCalled (path : str).            (* asr_model.transcribe(path) *)

Record world := World {
  fs : gmap str bytes;               (* the files on disk and their contents *)
  log : list event                   (* the events so far, oldest first *)
}.

Definition emit (ev : event) (w : world) : world :=
  World (fs w) (log w ++ [ev]).

(** ** A state and exception monad

    [M St A]: a computation on a state [St] that returns an [A] or raises. *)
Definition M (St A : Type) : Type := St -> (pyexc + A) * St.

Definition ret {St A} (a : A) : M St A := fun s => (inr a, s).

Definition raise {St A} (e : pyexc) : M St A := fun s => (inl e, s).

Definition bind {St A B} (m : M St A) (k : A -> M St B) : M St B :=
  fun s =>
    match m s with
    | (inr a, s') => k a s'
    | (inl e, s') => (inl e, s')
    end.

Declare Scope py_scope.
Delimit Scope py_scope with py.
Notation "x <- m ;; k" := (bind m (fun x => k))
  (at level 100, m at next level, right associativity) : py_scope.
Notation "m ;; k" := (bind m (fun _ => k))
  (at level 100, right associativity) : py_scope.
Local Open Scope py_scope.

(** Lift a pure external result (a value or an exception) into the monad. *)
Definition lift {St A} (r : pyexc + A) : M St A := fun s => (r, s).

(** [try: body  except Exception as e: handler e].  An exception that is
    not an [Exception] passes through. *)
Definition try_except {St A} (body : M St A) (handler : pyexc -> M St A) : M St A :=
  fun s =>
    match body s with
    | (inr a, s') => (inr a, s')
    | (inl e, s') => if exc_is_Exception e then handler e s' else (inl e, s')
    end.

Definition tell (ev : event) : M world unit := fun w => (inr tt, emit ev w).

Definition print (line : str) : M world unit := tell (Printed line).

(** ** HTTP responses *)

Inductive body :=
| Text (s : str)                       (* a str content *)
| Bytes (b : bytes)                    (* a bytes content *)
| Json (fields : list (str * str)).    (* a JSON object with string values *)

(** [fastapi.Response(content, status_code=200, media_type=None)]. *)
Record Response := mkResponse {
  content : body;
  status_code : Z;
  media_type : option str
}.

(** ** Speech synthesis: POST /tts *)

(** [class TextRequest(BaseModel)]: [text: str], [voice: str = 'af_heart']. *)
Record TextRequest := mkTextRequest {
  text : str;
  voice : str
}.

Definition default_voice : str := lit "af_heart".

(** The request body as pydantic builds it: [voice] defaults when omitted. *)
Definition TextRequest_of (text : str) (voice : option str) : TextRequest :=
  mkTextRequest text (default default_voice voice).

Section Synthesis.

(** One audio sample.  The handler never computes with samples. *)
Variable sample : Type.

(** An audio chunk: a one-dimensional array of samples. *)
Local Abbreviation chunk := (list sample).

(** What the pipeline's generator yields: a result that unpacks into
    [(graphemes, phonemes, audio)]. *)
Record Result := mkResult {
  graphemes : str;
  phonemes : str;
  audio : chunk
}.

(** A generator, by what advancing it does: it is exhausted
    ([StopIteration]), it raises, or it yields an item and goes on. *)
Inductive generator :=
| Stop
| Fail (e : pyexc)
| Yield (item : Result) (rest : generator).

(** The generator that yields the items of a list and stops. *)
Fixpoint yields (items : list Result) : generator :=
  match items with
  | [] => Stop
  | item :: rest => Yield item (yields rest)
  end.

(** [KPipeline.__call__(text, voice=...)]. *)
Definition KPipeline : Type := str -> str -> pyexc + generator.

(** The module-level handle: [None] when [KPipeline(lang_code='a')]
    raised at start-up. *)
Variable tts_pipeline : option KPipeline.

(** [sf.write(buffer, data, samplerate, format=...)] followed by
    [buffer.getvalue()]: the bytes written, or the exception raised. *)
Variable sf_write : chunk -> Z -> str -> pyexc + bytes.

(** [[audio_chunk for _, _, audio_chunk in generator]]. *)
Fixpoint comprehension (g : generator) : M world (list chunk) :=
  match g with
  | Stop => tell GenNext ;; ret []
  | Fail e => tell GenNext ;; raise e
  | Yield item rest =>
      tell GenNext ;;
      let audio_chunk := audio item in
      chunks <- comprehension rest ;;
      ret (audio_chunk :: chunks)
  end.

(** [np.concatenate(arrays)] on a list of one-dimensional arrays. *)
Definition np_concatenate (arrays : list chunk) : pyexc + chunk :=
  match arrays with
  | [] => inl (ValueError (lit "need at least one array to concatenate"))
  | _ => inr (List.concat arrays)
  end.

Definition call_pipeline (pipeline : KPipeline) (text voice : str) : M world generator :=
  tell (TtsCalled text voice) ;; lift (pipeline text voice).

Definition call_sf_write (data : chunk) (samplerate : Z) (format : str) : M world bytes :=
  tell (SfWriteCalled samplerate format) ;; lift (sf_write data samplerate format).

Definition model_not_available : Response :=
  mkResponse (Text (lit "Model not available. Check server logs.")) 500 None.

Definition no_audio_generated : Response :=
  mkResponse (Text (lit "No audio generated for the provided text.")) 400 None.

Definition internal_server_error (e : pyexc) : Response :=
  mkResponse (Text (lit "Internal Server Error: " ++ exc_str e)) 500 None.

(** The body of the [try] block of [text_to_speech]. *)
Definition tts_try (pipeline : KPipeline) (request : TextRequest) : M world Response :=
  generator <- call_pipeline pipeline (text request) (voice request) ;;
  all_audio_chunks <- comprehension generator ;;
  match all_audio_chunks with
  | [] => ret no_audio_generated
  | _ =>
      audio_data <- lift (np_concatenate all_audio_chunks) ;;
      buffer <- call_sf_write audio_data 24000 (lit "WAV") ;;
      ret (mkResponse (Bytes buffer) 200 (Some (lit "audio/wav")))
  end.

(** [async def text_to_speech(request: TextRequest)].  The result is the
    [Response] returned, or the exception that leaves the handler. *)
Definition text_to_speech (request : TextRequest) : M world Response :=
  match tts_pipeline with
  | None => ret model_not_available
  | Some pipeline =>
      try_except
        (tts_try pipeline request)
        (fun e =>
           print (lit "Error during TTS generation: " ++ exc_str e) ;;
           ret (internal_server_error e))
  end.

End Synthesis.

Arguments Stop {sample}.
Arguments Fail {sample} e.
Arguments Yield {sample} item rest.
Arguments mkResult {sample} graphemes phonemes audio.
Arguments audio {sample} r.
Arguments yields {sample} items.
Arguments comprehension {sample} g.
Arguments np_concatenate {sample} arrays.
Arguments tts_try {sample} sf_write pipeline request.
Arguments text_to_speech {sample} tts_pipeline sf_write request.

(** ** Transcription: POST /transcribe/ *)

(** What the handler uses of [fastapi.UploadFile]: the declared content
    type, absent when the part carries none, and what [await file.read()]
    gives. *)
Record UploadFile := mkUploadFile {
  content_type : option str;
  read : pyexc + bytes
}.

(** The values found in the dictionary [asr_model.transcribe] returns:
    strings, and objects of other types (lists, floats), which have no
    [strip] method. *)
Inductive pyval :=
| PyStr (s : str)
| PyObj (type_name : str).

(** [d[key]]. *)
Definition getitem (d : gmap str pyval) (key : str) : pyexc + pyval :=
  match d !! key with
  | Some v => inr v
  | None => inl (KeyError (lit "'" ++ key ++ lit "'"))
  end.

(** [v.strip()]. *)
Definition py_strip (v : pyval) : pyexc + str :=
  match v with
  | PyStr s => inr (strip s)
  | PyObj type_name =>
      inl (AttributeError (lit "'" ++ type_name ++ lit "' object has no attribute 'strip'"))
  end.

(** How a call of a handler ends. *)
Inductive outcome (A : Type) :=
| Returned (a : A)                                (* return a *)
| HTTPException (status : Z) (detail : str)       (* raise HTTPException(status_code=status, detail=detail) *)
| Unhandled (e : pyexc).                          (* another exception leaves the handler *)

Arguments Returned {A} a.
Arguments HTTPException {A} status detail.
Arguments Unhandled {A} e.

(** The local variable [tmp_file_path] next to the world. *)
Record locals := Locals {
  the_world : world;
  tmp_file_path : option str
}.

Section Transcription.

(** [asr_model.transcribe(path)]: it reads the file system and returns
    the result dictionary, or raises. *)
Variable asr_model : str -> gmap str bytes -> pyexc + gmap str pyval.

(** The candidate names [tempfile] draws, directory and prefix
    included, and the number of names it tries ([tempfile.TMP_MAX]). *)
Variable tmp_names : nat -> str.
Variable TMP_MAX : nat.

(** What writing these bytes to a file raises, if anything (a full
    disk, an I/O error). *)
Variable disk_error : bytes -> option pyexc.

(** The size of the buffer of the file object [tempfile] opens: the
    block size of the file system or [io.DEFAULT_BUFFER_SIZE]. *)
Variable buffer_size : nat.

(** [tempfile]'s search for an unused name: the first candidate with the
    suffix [".wav"] that is not a file yet. *)
Fixpoint mkstemp (attempts seq : nat) (files : gmap str bytes) : pyexc + str :=
  match attempts with
  | O => inl (FileExistsError (lit "[Errno 17] No usable temporary file name found"))
  | S attempts' =>
      let name := tmp_names seq ++ lit ".wav" in
      match files !! name with
      | None => inr name
      | Some _ => mkstemp attempts' (S seq) files
      end
  end.

(** [tempfile.NamedTemporaryFile(delete=False, suffix=".wav")]: a new,
    empty file under an unused name; leaving the [with] block closes it
    and, with [delete=False], keeps it.  The result is [tmp_file.name]. *)
Definition NamedTemporaryFile : M locals str :=
  fun l =>
    let w := the_world l in
    match mkstemp TMP_MAX 0 (fs w) with
    | inl e => (inl e, l)
    | inr name => (inr name, Locals (World (<[name := []]> (fs w)) (log w)) (tmp_file_path l))
    end.

(** What the operating system raises when the file object hands it a
    block: it is asked only when there is something to write. *)
Definition os_write_error (block : bytes) : option pyexc :=
  match block with
  | [] => None
  | _ :: _ => disk_error block
  end.

(** The file object writes a block to the file: the block is appended,
    or the error of the operating system is raised. *)
Definition raw_write (name : str) (block : bytes) : M locals unit :=
  fun l =>
    let w := the_world l in
    match os_write_error block with
    | Some e => (inl e, l)
    | None =>
        (inr tt,
         Locals (World (<[name := default [] (fs w !! name) ++ block]> (fs w)) (log w))
           (tmp_file_path l))
    end.

(** [tmp_file.write(data)] on the file just opened.  Data that fits the
    buffer stays in it and nothing is written yet; longer data goes to
    the file at once.  The result is what is left in the buffer. *)
Definition tmp_file_write (name : str) (data : bytes) : M locals bytes :=
  if (length data <=? buffer_size)%nat
  then ret data
  else raw_write name data ;; ret [].

(** Leaving the [with] block closes the file: what is left in the buffer
    is written then.  (When the block raises, the buffer is empty, and
    closing the file writes nothing.) *)
Definition tmp_file_close (name : str) (buffered : bytes) : M locals unit :=
  raw_write name buffered.

(** [tmp_file_path = name]. *)
Definition set_tmp_file_path (name : str) : M locals unit :=
  fun l => (inr tt, Locals (the_world l) (Some name)).

(** [asr_model.transcribe(path)]. *)
Definition transcribe (path : str) : M locals (gmap str pyval) :=
  fun l =>
    let w := the_world l in
    (asr_model path (fs w), Locals (emit (AsrCalled path) w) (tmp_file_path l)).

(** The body of the [try] block of [transcribe_audio]. *)
Definition transcribe_try (file : UploadFile) : M locals (list (str * str)) :=
  tmp_file <- NamedTemporaryFile ;;
  data <- lift (read file) ;;
  buffered <- tmp_file_write tmp_file data ;;
  set_tmp_file_path tmp_file ;;
  tmp_file_close tmp_file buffered ;;
  result <- transcribe tmp_file ;;
  value <- lift (getitem result (lit "text")) ;;
  stripped <- lift (py_strip value) ;;
  ret [(lit "transcribed_text", stripped)].

(** [os.path.exists(path)]. *)
Definition os_path_exists (path : str) (w : world) : bool :=
  bool_decide (is_Some (fs w !! path)).

(** [os.remove(path)] of a file that exists. *)
Definition os_remove (path : str) (w : world) : world :=
  World (delete path (fs w)) (log w).

(** The truth value of [tmp_file_path]: [None] and [''] are false. *)
Definition truthy (v : option str) : bool :=
  match v with
  | None | Some [] => false
  | Some (_ :: _) => true
  end.

(** The [finally] block of [transcribe_audio]. *)
Definition transcribe_finally (l : locals) : world :=
  let w := the_world l in
  match tmp_file_path l with
  | Some path =>
      if truthy (tmp_file_path l) && os_path_exists path w
      then os_remove path w
      else w
  | None => w
  end.

(** [async def transcribe_audio(file: UploadFile = File(...))]. *)
Definition transcribe_audio (file : UploadFile) (w : world)
  : outcome (list (str * str)) * world :=
  match content_type file with
  | None =>
      (Unhandled (AttributeError (lit "'NoneType' object has no attribute 'startswith'")), w)
  | Some ct =>
      if negb (startswith ct (lit "audio/"))
      then (HTTPException 400 (lit "Invalid file type. Please upload an audio file."), w)
      else
        let '(r, l) := transcribe_try file (Locals w None) in
        let out :=
          match r with
          | inr d => Returned d
          | inl e =>
              if exc_is_Exception e
              then HTTPException 500 (lit "An error occurred: " ++ exc_str e)
              else Unhandled e
          end in
        (out, transcribe_finally l)
  end.

End Transcription.

(** What FastAPI sends for an outcome of a handler that returns a
    dictionary: the dictionary as JSON with status 200, and for an
    [HTTPException] its status with the body [{"detail": detail}].  An
    exception that is not an [HTTPException] is left to the server. *)
Definition respond (out : outcome (list (str * str))) : option Response :=
  match out with
  | Returned d => Some (mkResponse (Json d) 200 (Some (lit "application/json")))
  | HTTPException status detail =>
      Some (mkResponse (Json [(lit "detail", detail)]) status (Some (lit "application/json")))
  | Unhandled _ => None
  end.

(** ** Auxiliary definitions for the statements *)

(** [logged w evs]: the world [w] after the events [evs]. *)
Definition logged (w : world) (evs : list event) : world :=
  World (fs w) (log w ++ evs).

(** What draining a generator gives: the chunks in the order they were
    yielded, or the exception that ends the iteration. *)
Fixpoint drain {sample} (g : generator sample) : pyexc + list (list sample) :=
  match g with
  | Stop => inr []
  | Fail e => inl e
  | Yield item rest =>
      match drain rest with
      | inr chunks => inr (audio item :: chunks)
      | inl e => inl e
      end
  end.

(** How often draining a generator advances it. *)
Fixpoint pulls {sample} (g : generator sample) : nat :=
  match g with
  | Stop | Fail _ => 1
  | Yield _ rest => S (pulls rest)
  end.

(** The events of a synthesis up to the end of the iteration. *)
Definition tts_events {sample} (request : TextRequest) (g : generator sample) : list event :=
  TtsCalled (text request) (voice request) :: repeat GenNext (pulls g).

(** The outcome of [transcribe_audio] when its [try] block raises [e]. *)
Definition failure {A} (e : pyexc) : outcome A :=
  if exc_is_Exception e
  then HTTPException 500 (lit "An error occurred: " ++ exc_str e)
  else Unhandled e.

(** [result["text"].strip()]. *)
Definition stripped_text (result : gmap str pyval) : pyexc + str :=
  match getitem result (lit "text") with
  | inl e => inl e
  | inr value => py_strip value
  end.

(** The outcome of [transcribe_audio] once the model has answered. *)
Definition transcribed (answer : pyexc + gmap str pyval) : outcome (list (str * str)) :=
  match answer with
  | inl e => failure e
  | inr result =>
      match stripped_text result with
      | inl e => failure e
      | inr stripped => Returned [(lit "transcribed_text", stripped)]
      end
  end.

(** ** Test doubles

    Stand-ins for the external components, to run the handlers on
    concrete requests. *)
Module Fake.

Definition byte_of (n : Z) : Byte.byte :=
  default Byte.x00 (Byte.of_N (Z.to_N (n mod 256))).

Definition le16 (n : Z) : bytes := [byte_of n; byte_of (n / 256)].

Definition le32 (n : Z) : bytes := le16 n ++ le16 (n / 65536).

Definition ascii_bytes (s : string) : bytes :=
  map (fun ch => default Byte.x00 (Byte.of_N ch)) (lit s).

(** An encoder for integer samples: mono 16-bit PCM in a RIFF/WAVE
    container.  It knows the format ["WAV"] only. *)
Definition sf_write (data : list Z) (samplerate : Z) (format : str) : pyexc + bytes :=
  if bool_decide (format = lit "WAV") then
    let size := 2 * Z.of_nat (length data) in
    inr (ascii_bytes "RIFF" ++ le32 (36 + size) ++ ascii_bytes "WAVEfmt " ++
         le32 16 ++ le16 1 ++ le16 1 ++ le32 samplerate ++ le32 (2 * samplerate) ++
         le16 2 ++ le16 16 ++ ascii_bytes "data" ++ le32 size ++
         List.concat (map le16 data))
  else inl (ValueError (lit "unknown format")).

(** An encoder that always fails. *)
Definition sf_write_broken (data : list Z) (samplerate : Z) (format : str) : pyexc + bytes :=
  inl (PyExc (lit "LibsndfileError") true (lit "Error opening file")).

(** A pipeline that produces the chunks [A], [B], [C], whatever the text. *)
Definition A : list Z := [1; 2].
Definition B : list Z := [3].
Definition C : list Z := [4; 5; 6].

Definition abc_pipeline : KPipeline Z :=
  fun text voice =>
    inr (yields [mkResult text (lit "a") A; mkResult text (lit "b") B;
                 mkResult text (lit "c") C]).

(** A pipeline that skips blank text, and produces one chunk otherwise. *)
Definition skipping_pipeline : KPipeline Z :=
  fun text voice =>
    if blank text then inr Stop else inr (yields [mkResult text text A]).

(** A pipeline that fails while it is iterated. *)
Definition failing_pipeline : KPipeline Z :=
  fun text voice =>
    inr (Yield (mkResult text text A)
           (Fail (PyExc (lit "RuntimeError") true (lit "out of memory")))).

Definition hello : TextRequest := TextRequest_of (lit "Hello world.") None.
Definition spaces : TextRequest := TextRequest_of (lit "   ") None.

(** A world with no files and no events. *)
Definition w0 : world := World ∅ [].

(** Temporary names [/tmp/tmp], [/tmp/tmpa], [/tmp/tmpaa], ... *)
Definition tmp_names (i : nat) : str := lit "/tmp/tmp" ++ repeat 97%N i.

(** A transcriber that hears the same sentence in every readable file. *)
Definition asr_model (path : str) (files : gmap str bytes) : pyexc + gmap str pyval :=
  match files !! path with
  | Some _ =>
      inr {[ lit "text" := PyStr (lit "  hello world ");
             lit "language" := PyStr (lit "en");
             lit "segments" := PyObj (lit "list") ]}
  | None => inl (PyExc (lit "RuntimeError") true (lit "Failed to load audio"))
  end.

(** A transcriber that fails on every file. *)
Definition asr_model_broken (path : str) (files : gmap str bytes) : pyexc + gmap str pyval :=
  inl (PyExc (lit "RuntimeError") true (lit "Failed to load audio")).

(** A disk with room, and a disk that is full. *)
Definition disk_ok (data : bytes) : option pyexc := None.

(** The buffer of the file object: [io.DEFAULT_BUFFER_SIZE]. *)
Definition buffer_size : nat := N.to_nat 8192.

Definition disk_full (data : bytes) : option pyexc :=
  Some (PyExc (lit "OSError") true (lit "[Errno 28] No space left on device")).

Definition wav_upload : UploadFile :=
  mkUploadFile (Some (lit "audio/wav")) (inr (ascii_bytes "RIFF")).

(** An upload of 10000 bytes: longer than the buffer. *)
Definition long_upload : UploadFile :=
  mkUploadFile (Some (lit "audio/wav")) (inr (repeat Byte.x00 (N.to_nat 10000))).

Definition text_upload : UploadFile :=
  mkUploadFile (Some (lit "text/plain")) (inr (ascii_bytes "hello")).

Definition untyped_upload : UploadFile :=
  mkUploadFile None (inr (ascii_bytes "RIFF")).

End Fake.

(** ** Start-up: the module-level code of main.py *)

Section Startup.

Variable sample : Type.

(** The transcription model as the handler uses it. *)
Local Abbreviation Whisper := (str -> gmap str bytes -> pyexc + gmap str pyval).

(** [try: tts_pipeline = KPipeline(lang_code='a')
     except Exception as e: print(...); tts_pipeline = None],
    for what the constructor gives. *)
Definition init_tts_pipeline (constructed : pyexc + KPipeline sample)
  : M world (option (KPipeline sample)) :=
  try_except
    (pipeline <- lift constructed ;; ret (Some pipeline))
    (fun e =>
       print (lit "Error initializing KPipeline: " ++ exc_str e) ;;
       ret None).

(** The module body: the synthesis handle first, then
    [asr_model = whisper.load_model("small")], which is not guarded. *)
Definition main_module (constructed : pyexc + KPipeline sample) (loaded : pyexc + Whisper)
  : M world (option (KPipeline sample) * Whisper) :=
  tts_pipeline <- init_tts_pipeline constructed ;;
  asr_model <- lift loaded ;;
  ret (tts_pipeline, asr_model).

End Startup.

Arguments init_tts_pipeline {sample} constructed.
Arguments main_module {sample} constructed loaded.

(** ** The page: app.py

    The Streamlit script runs from top to bottom at every interaction.
    Its model takes what the input widgets return in that run and gives
    what the script puts on the page and the requests it sends, in order. *)

(** [requests.post(url, json=..., timeout=...)] and
    [requests.post(url, files={field: (filename, data, content_type)})]. *)
Inductive http_request :=
| PostJson (url : str) (json : list (str * str)) (timeout : option Z)
| PostFiles (url : str) (field filename : str) (data : bytes) (file_type : str).

(** What [response.json()] gives, by what the script does with it: a
    JSON object with, for each key, the [str] of its value (a string
    value is its own [str]), or a value of another type, which has no
    [get] method. *)
Inductive json_value :=
| JsonObject (fields : gmap str str)
| JsonOther (type_name : str).

(** [value.get(key, fallback)]. *)
Definition json_get (value : json_value) (key fallback : str) : pyexc + str :=
  match value with
  | JsonObject fields => inr (default fallback (fields !! key))
  | JsonOther type_name =>
      inl (AttributeError (lit "'" ++ type_name ++ lit "' object has no attribute 'get'"))
  end.

(** A [requests.Response]: [status_code], [content], [text] and what
    [json()] gives. *)
Record http_response := mkHttpResponse {
  resp_status : Z;
  resp_content : bytes;
  resp_text : str;
  resp_json : pyexc + json_value
}.

(** What a run of the script does, in order. *)
Inductive element :=
| StPageConfig (page_title layout : str)     (* st.set_page_config(...) *)
| StTitle (s : str)                          (* st.title(s) *)
| StTabs (labels : list str)                 (* st.tabs(labels) *)
| StHeader (s : str)                         (* st.header(s) *)
| StMarkdown (s : str)                       (* st.markdown(s) *)
| StSpinner (s : str)                        (* with st.spinner(s): *)
| StAudio (data : bytes) (format : str)      (* st.audio(data, format=format) *)
| StSuccess (s : str)                        (* st.success(s) *)
| StError (s : str)                          (* st.error(s) *)
| StWarning (s : str)                        (* st.warning(s) *)
| StWrite (s : str)                          (* st.write(s) *)
| RequestsPost (req : http_request).         (* requests.post(...) *)

(** What the input widgets return in one run: the text area, the button
    "Generate Audio", the audio recorder. *)
Record interaction := mkInteraction {
  input_text : str;
  generate_clicked : bool;
  st_audio_bytes : option bytes
}.

(** [try: body] followed by [except] clauses: the first clause that
    matches the exception handles it; with none, it goes on. *)
Fixpoint dispatch {St A} (clauses : list ((pyexc -> bool) * (pyexc -> M St A)))
    (e : pyexc) : M St A :=
  match clauses with
  | [] => raise e
  | (matches, handler) :: rest => if matches e then handler e else dispatch rest e
  end.

Definition try_excepts {St A} (body : M St A)
    (clauses : list ((pyexc -> bool) * (pyexc -> M St A))) : M St A :=
  fun s =>
    match body s with
    | (inr a, s') => (inr a, s')
    | (inl e, s') => dispatch clauses e s'
    end.

Definition BACKEND_URL : str := lit "http://127.0.0.1:8000".

(** The characters of the messages that are not ASCII. *)
Definition speaking_head : str := [128483; 65039]%N.
Definition check_mark : str := [9989]%N.
Definition cross_mark : str := [10060]%N.

Section Page.

(** The network and the server behind it: what [requests.post] returns
    or raises for a request. *)
Variable requests_post : http_request -> pyexc + http_response.

(** [isinstance(e, cls)] for the exception classes the script names. *)
Variable isinstance : pyexc -> str -> bool.

Definition st (el : element) : M (list element) unit :=
  fun page => (inr tt, page ++ [el]).

Definition post (req : http_request) : M (list element) http_response :=
  st (RequestsPost req) ;; lift (requests_post req).

(** The [try] block of the text-to-speech tab. *)
Definition tts_tab_try (input_text : str) : M (list element) unit :=
  let payload := [(lit "text", input_text); (lit "voice", lit "af_heart")] in
  let tts_api_url := BACKEND_URL ++ lit "/tts" in
  response <- post (PostJson tts_api_url payload (Some 120)) ;;
  if resp_status response =? 200 then
    st (StAudio (resp_content response) (lit "audio/wav")) ;;
    st (StSuccess (lit "Audio generated successfully!"))
  else
    st (StError (lit "Error from API: " ++ resp_text response)).

(** [with tts_tab:]. *)
Definition tts_tab (i : interaction) : M (list element) unit :=
  st (StHeader (lit "Text to Speech")) ;;
  st (StMarkdown (lit "Enter text and generate speech using the Kokoro TTS model.")) ;;
  if generate_clicked i then
    match input_text i with
    | _ :: _ =>
        st (StSpinner (lit "Generating audio...")) ;;
        try_excepts (tts_tab_try (input_text i))
          [ (fun e => isinstance e (lit "requests.exceptions.Timeout"),
             fun _ =>
               st (StError (lit "The request timed out. The server might be busy. Please try again with a shorter text.")));
            (fun e => isinstance e (lit "requests.exceptions.RequestException"),
             fun e =>
               st (StError (lit "Could not connect to the API. Please ensure the server is running. Error: "
                              ++ exc_str e))) ]
    | [] => st (StWarning (lit "Please enter some text to generate audio."))
    end
  else ret tt.

(** The [try] block of the speech-to-text tab. *)
Definition stt_tab_try (st_audio_bytes : bytes) : M (list element) unit :=
  let stt_api_url := BACKEND_URL ++ lit "/transcribe/" in
  response <- post (PostFiles stt_api_url (lit "file") (lit "audio.wav") st_audio_bytes
                      (lit "audio/wav")) ;;
  if resp_status response =? 200 then
    result <- lift (resp_json response) ;;
    transcribed_text <- lift (json_get result (lit "transcribed_text") (lit "No text found.")) ;;
    st (StSuccess (check_mark ++ lit " **Transcription Complete:**")) ;;
    st (StWrite (lit "**You said:** " ++ [34%N] ++ transcribed_text ++ [34%N]))
  else
    result <- lift (resp_json response) ;;
    error_detail <- lift (json_get result (lit "detail") (lit "Unknown error.")) ;;
    st (StError (cross_mark ++ lit " **Error from Backend:** " ++ error_detail)).

(** [with stt_tab:]. *)
Definition stt_tab (i : interaction) : M (list element) unit :=
  st (StHeader (lit "Speech to Text")) ;;
  st (StMarkdown (lit "Record your voice, and the FastAPI backend will transcribe it.")) ;;
  match st_audio_bytes i with
  | Some (b :: rest) =>
      st (StAudio (b :: rest) (lit "audio/wav")) ;;
      st (StMarkdown (lit "### Transcribing...")) ;;
      try_excepts (stt_tab_try (b :: rest))
        [ (fun e => isinstance e (lit "requests.exceptions.ConnectionError"),
           fun _ =>
             st (StError (cross_mark ++ lit " **Connection Error:** Could not connect to the backend server. Make sure it's running.")));
          (fun e => isinstance e (lit "json.JSONDecodeError"),
           fun _ =>
             st (StError (cross_mark ++ lit " **JSON Error:** Received an invalid response from the backend.")));
          (exc_is_Exception,
           fun e =>
             st (StError (cross_mark ++ lit " **An unexpected error occurred:** " ++ exc_str e))) ]
  | Some [] | None => ret tt
  end.

(** The script. *)
Definition app (i : interaction) : M (list element) unit :=
  st (StPageConfig (lit "Text to Speech & Speech to Text") (lit "wide")) ;;
  st (StTitle (speaking_head ++ lit " AI Audio Services")) ;;
  st (StMarkdown (lit "Use this app to generate speech from text or transcribe audio to text.")) ;;
  st (StTabs [lit "Text to Speech"; lit "Speech to Text"]) ;;
  tts_tab i ;;
  stt_tab i.

End Page.

(** ** The page and the service together *)

(** The requests among the elements of a run. *)
Definition requests_of (page : list element) : list http_request :=
  omap (fun el => match el with RequestsPost req => Some req | _ => None end) page.

(** The requests of the two tabs. *)
Definition tts_requests (i : interaction) : list http_request :=
  if generate_clicked i then
    match input_text i with
    | _ :: _ =>
        [PostJson (BACKEND_URL ++ lit "/tts")
           [(lit "text", input_text i); (lit "voice", lit "af_heart")] (Some 120)]
    | [] => []
    end
  else [].

Definition stt_requests (i : interaction) : list http_request :=
  match st_audio_bytes i with
  | Some (b :: rest) =>
      [PostFiles (BACKEND_URL ++ lit "/transcribe/") (lit "file") (lit "audio.wav")
         (b :: rest) (lit "audio/wav")]
  | _ => []
  end.

(** The value of a key in the JSON object of a request body. *)
Fixpoint json_field (json : list (str * str)) (key : str) : option str :=
  match json with
  | [] => None
  | (k, v) :: rest => if bool_decide (k = key) then Some v else json_field rest key
  end.

(** The [TextRequest] FastAPI builds from a JSON body: [text] is
    required, [voice] has its default. *)
Definition parse_TextRequest (json : list (str * str)) : option TextRequest :=
  match json_field json (lit "text") with
  | Some text => Some (TextRequest_of text (json_field json (lit "voice")))
  | None => None
  end.

(** The [UploadFile] FastAPI builds from the part [file] of a multipart
    body. *)
Definition parse_UploadFile (req : http_request) : option UploadFile :=
  match req with
  | PostFiles _ field _ data file_type =>
      if bool_decide (field = lit "file")
      then Some (mkUploadFile (Some file_type) (inr data))
      else None
  | PostJson _ _ _ => None
  end.

(** The client receives what the service sent: the status, and the body
    as the client reads it ([text] for a text, [content] for bytes,
    [json()] for a JSON object). *)
Definition delivers (r : Response) (resp : http_response) : Prop :=
  resp_status resp = status_code r ∧
  match content r with
  | Text s => resp_text resp = s
  | Bytes b => resp_content resp = b
  | Json fields => resp_json resp = inr (JsonObject (list_to_map fields))
  end.

(** ** More test doubles *)
Module Scenario.

(** An exception that is not an [Exception]. *)
Definition cancelled : pyexc := PyExc (lit "CancelledError") false (lit "").

(** A pipeline interrupted while it is iterated. *)
Definition interrupted_pipeline : KPipeline Z :=
  fun text voice => inr (Yield (mkResult text text Fake.A) (Fail cancelled)).

(** A pipeline whose construction failed. *)
Definition no_weights : pyexc := PyExc (lit "OSError") true (lit "model weights not found").

(** Transcribers: one whose result has no ["text"], one whose ["text"]
    is not a string, one that is cancelled, one that hears nothing, one
    that hears a sentence with no white space around it. *)
Definition asr_no_text (path : str) (files : gmap str bytes) : pyexc + gmap str pyval :=
  inr {[ lit "language" := PyStr (lit "en") ]}.

Definition asr_text_none (path : str) (files : gmap str bytes) : pyexc + gmap str pyval :=
  inr {[ lit "text" := PyObj (lit "NoneType") ]}.

Definition asr_cancelled (path : str) (files : gmap str bytes) : pyexc + gmap str pyval :=
  inl cancelled.

Definition asr_silence (path : str) (files : gmap str bytes) : pyexc + gmap str pyval :=
  inr {[ lit "text" := PyStr [32; 10; 9; 160]%N ]}.

Definition asr_plain (path : str) (files : gmap str bytes) : pyexc + gmap str pyval :=
  inr {[ lit "text" := PyStr (lit "hello  world") ]}.

(** A world where the first temporary name is taken. *)
Definition w1 : world :=
  World {[ lit "/tmp/tmp.wav" := Fake.ascii_bytes "old" ]} [Printed (lit "earlier")].

(** An upload that cannot be read. *)
Definition broken_upload : UploadFile :=
  mkUploadFile (Some (lit "audio/wav"))
    (inl (PyExc (lit "ClientDisconnect") true (lit "client disconnected"))).

(** The service behind the page: the two handlers with the doubles of
    [Fake], in the world [Fake.w0]. *)
Definition render (r : Response) : http_response :=
  match content r with
  | Text message =>
      mkHttpResponse (status_code r) [] message
        (inl (PyExc (lit "json.JSONDecodeError") true (lit "Expecting value")))
  | Bytes buffer =>
      mkHttpResponse (status_code r) buffer []
        (inl (PyExc (lit "json.JSONDecodeError") true (lit "Expecting value")))
  | Json fields =>
      mkHttpResponse (status_code r) [] [] (inr (JsonObject (list_to_map fields)))
  end.

Definition unprocessable : http_response :=
  mkHttpResponse 422 [] [] (inr (JsonObject {[ lit "detail" := lit "[...]" ]})).

Definition service (tts_pipeline : option (KPipeline Z))
    (asr_model : str -> gmap str bytes -> pyexc + gmap str pyval)
    (req : http_request) : pyexc + http_response :=
  match req with
  | PostJson _ json _ =>
      match parse_TextRequest json with
      | Some request =>
          match fst (text_to_speech tts_pipeline Fake.sf_write request Fake.w0) with
          | inr r => inr (render r)
          | inl e => inl e
          end
      | None => inr unprocessable
      end
  | PostFiles _ _ _ _ _ =>
      match parse_UploadFile req with
      | Some file =>
          match respond (fst (transcribe_audio asr_model Fake.tmp_names 100 Fake.disk_ok
                                Fake.buffer_size file Fake.w0)) with
          | Some r => inr (render r)
          | None => inr (mkHttpResponse 500 [] (lit "Internal Server Error")
                           (inl (PyExc (lit "json.JSONDecodeError") true (lit "Expecting value"))))
          end
      | None => inr unprocessable
      end
  end.

(** A network that is down, and one that fails with an exception of no
    class of [requests]. *)
Definition refused : pyexc :=
  PyExc (lit "requests.exceptions.ConnectionError") true (lit "Connection refused").

Definition network_down (req : http_request) : pyexc + http_response := inl refused.

Definition network_interrupted (req : http_request) : pyexc + http_response := inl cancelled.

(** [isinstance] for the classes of [requests]: a connection error and a
    timeout are request exceptions. *)
Definition isinstance (e : pyexc) (cls : str) : bool :=
  bool_decide (exc_class e = cls) ||
  (bool_decide (cls = lit "requests.exceptions.RequestException") &&
   (bool_decide (exc_class e = lit "requests.exceptions.ConnectionError") ||
    bool_decide (exc_class e = lit "requests.exceptions.Timeout"))).

(** Runs of the page: blank text with the button pressed; a text and a
    recording with the button pressed; a recording only. *)
Definition blank_click : interaction := mkInteraction (lit "   ") true None.

Definition text_and_recording : interaction :=
  mkInteraction (lit "Hello world.") true (Some (Fake.ascii_bytes "RIFF")).

Definition recording_only : interaction :=
  mkInteraction (lit "Hello world.") false (Some (Fake.ascii_bytes "RIFF")).

End Scenario.

(** * Properties *)

Arguments lit : simpl never.

(** ** Strings *)

Lemma blank_app (s t : str) : blank (s ++ t) = blank s && blank t.
Proof. unfold blank. apply forallb_app. Qed.

Lemma blank_reverse (s : str) : blank (reverse s) = blank s.
Proof.
  induction s as [|ch s IH]; [done|].
  rewrite reverse_cons, blank_app, IH. simpl. rewrite andb_true_r. apply andb_comm.
Qed.

(** [lstrip] removes a blank prefix, and what is left does not start with
    white space. *)
Lemma lstrip_spec (s : str) :
  ∃ l, s = l ++ lstrip s ∧ blank l = true ∧
       ∀ ch, head (lstrip s) = Some ch → isspace ch = false.
Proof.
  induction s as [|c s (l & Hs & Hl & Hh)]; simpl.
  - exists []. done.
  - destruct (isspace c) eqn:Hc.
    + exists (c :: l). simpl. rewrite Hc, Hl. split; [by f_equal|done].
    + exists []. simpl. split; [done|]. split; [done|].
      intros ch [= <-]. done.
Qed.

Lemma rstrip_spec (s : str) :
  ∃ r, s = rstrip s ++ r ∧ blank r = true ∧
       ∀ ch, last (rstrip s) = Some ch → isspace ch = false.
Proof.
  unfold rstrip. destruct (lstrip_spec (reverse s)) as (l & Hs & Hl & Hh).
  exists (reverse l). split; [|split].
  - rewrite <- reverse_app, <- Hs. by rewrite reverse_involutive.
  - by rewrite blank_reverse.
  - intros ch. rewrite last_reverse. apply Hh.
Qed.

(** [strip] cuts a blank prefix and a blank suffix off, and what is left
    neither starts nor ends with white space. *)
Lemma strip_spec (s : str) :
  ∃ l r, s = l ++ strip s ++ r ∧ blank l = true ∧ blank r = true ∧
         (∀ ch, head (strip s) = Some ch → isspace ch = false) ∧
         (∀ ch, last (strip s) = Some ch → isspace ch = false).
Proof.
  unfold strip.
  destruct (lstrip_spec s) as (l & Hs & Hl & Hh).
  destruct (rstrip_spec (lstrip s)) as (r & Hs' & Hr & Ht).
  exists l, r. repeat split; try done.
  - by rewrite <- Hs'.
  - intros ch Hch. apply Hh. rewrite Hs'.
    destruct (rstrip (lstrip s)); [done|simpl in *; done].
Qed.

Lemma strip_blank (s : str) : blank s = true → strip s = [].
Proof.
  intros Hb. unfold strip.
  assert (Hl : ∀ t, blank t = true → lstrip t = []).
  { induction t as [|c t IH]; [done|]. simpl.
    intros [-> Ht]%andb_true_iff. by apply IH. }
  rewrite (Hl s Hb). done.
Qed.

(** ** The world *)

Lemma emit_logged ev w : emit ev w = logged w [ev].
Proof. done. Qed.

Lemma logged_logged w evs evs' : logged (logged w evs) evs' = logged w (evs ++ evs').
Proof. unfold logged. simpl. by rewrite app_assoc. Qed.

(** ** Speech synthesis *)

Section SynthesisFacts.

Context {sample : Type}.
Implicit Types (g : generator sample) (w : world) (request : TextRequest).

Lemma comprehension_spec g w :
  comprehension g w = (drain g, logged w (repeat GenNext (pulls g))).
Proof.
  revert w. induction g as [|e|item rest IH]; intros w; try done.
  cbn [comprehension drain pulls]. unfold bind at 1, tell at 1.
  unfold bind. rewrite IH, emit_logged, logged_logged.
  by destruct (drain rest).
Qed.

Lemma drain_yields (items : list (Result sample)) :
  drain (yields items) = inr (map audio items).
Proof. induction items as [|item items IH]; [done|]. simpl. by rewrite IH. Qed.

Lemma pulls_yields (items : list (Result sample)) :
  pulls (yields items) = S (length items).
Proof. induction items as [|item items IH]; [done|]. simpl. by rewrite IH. Qed.

(** A generator that is drained without an exception yielded the items
    of a list and stopped. *)
Lemma drain_inr g chunks :
  drain g = inr chunks → ∃ items, g = yields items ∧ chunks = map audio items.
Proof.
  revert chunks. induction g as [|e|item rest IH]; intros chunks; simpl.
  - intros [= <-]. by exists [].
  - done.
  - destruct (drain rest) as [e|cs]; [done|]. intros [= <-].
    destruct (IH cs eq_refl) as (items & -> & ->). by exists (item :: items).
Qed.

Variable sf_write : list sample → Z → str → pyexc + bytes.

(** The [try] block of [text_to_speech], case by case. *)
Lemma tts_try_spec (pipeline : KPipeline sample) request w :
  tts_try sf_write pipeline request w =
    match pipeline (text request) (voice request) with
    | inl e => (inl e, logged w [TtsCalled (text request) (voice request)])
    | inr g =>
        match drain g with
        | inl e => (inl e, logged w (tts_events request g))
        | inr [] => (inr no_audio_generated, logged w (tts_events request g))
        | inr chunks =>
            let w' := logged w (tts_events request g ++ [SfWriteCalled 24000 (lit "WAV")]) in
            match sf_write (List.concat chunks) 24000 (lit "WAV") with
            | inl e => (inl e, w')
            | inr buffer =>
                (inr (mkResponse (Bytes buffer) 200 (Some (lit "audio/wav"))), w')
            end
        end
    end.
Proof.
  unfold tts_try, call_pipeline, tts_events.
  unfold bind at 1. unfold bind at 1, tell at 1, lift at 1.
  rewrite emit_logged.
  destruct (pipeline _ _) as [e|g]; [done|].
  unfold bind at 1. rewrite comprehension_spec, logged_logged. simpl app.
  destruct (drain g) as [e|[|chunk chunks]]; [done|done|].
  unfold np_concatenate, call_sf_write, lift, bind, tell. simpl.
  rewrite emit_logged, logged_logged. simpl app.
  by destruct (sf_write _ _ _).
Qed.

(** How [text_to_speech] ends when its [try] block raises. *)
Lemma text_to_speech_except (pipeline : KPipeline sample) request w e w' :
  tts_try sf_write pipeline request w = (inl e, w') →
  text_to_speech (Some pipeline) sf_write request w =
    if exc_is_Exception e
    then (inr (internal_server_error e),
          logged w' [Printed (lit "Error during TTS generation: " ++ exc_str e)])
    else (inl e, w').
Proof.
  intros Htry. unfold text_to_speech, try_except. rewrite Htry.
  by destruct (exc_is_Exception e).
Qed.

Lemma text_to_speech_return (pipeline : KPipeline sample) request w r w' :
  tts_try sf_write pipeline request w = (inr r, w') →
  text_to_speech (Some pipeline) sf_write request w = (inr r, w').
Proof. intros Htry. unfold text_to_speech, try_except. by rewrite Htry. Qed.

Lemma text_to_speech_unfold (pipeline : KPipeline sample) request w :
  text_to_speech (Some pipeline) sf_write request w =
    match tts_try sf_write pipeline request w with
    | (inr r, w') => (inr r, w')
    | (inl e, w') =>
        if exc_is_Exception e
        then (inr (internal_server_error e),
              logged w' [Printed (lit "Error during TTS generation: " ++ exc_str e)])
        else (inl e, w')
    end.
Proof.
  destruct (tts_try sf_write pipeline request w) as [[e|r] w'] eqn:Htry.
  - by apply text_to_speech_except.
  - by apply text_to_speech_return.
Qed.

(** The responses of the [except] clause and of the unavailable model
    have status 500. *)
Lemma internal_server_error_500 e : status_code (internal_server_error e) = 500.
Proof. done. Qed.

(** A response of [text_to_speech] with status 400 is the "no audio"
    response, and the model produced the empty sequence. *)
Lemma text_to_speech_400 (tts_pipeline : option (KPipeline sample)) request w r w' :
  text_to_speech tts_pipeline sf_write request w = (inr r, w') →
  status_code r = 400 →
  r = no_audio_generated ∧
  ∃ pipeline, tts_pipeline = Some pipeline ∧
              pipeline (text request) (voice request) = inr Stop.
Proof.
  destruct tts_pipeline as [pipeline|]; [|by intros [= <- <-]].
  rewrite text_to_speech_unfold, tts_try_spec.
  destruct (pipeline _ _) as [e|g] eqn:Hcall.
  { destruct (exc_is_Exception e); [by intros [= <- <-]|done]. }
  destruct (drain g) as [e|[|chunk chunks]] eqn:Hdrain.
  - destruct (exc_is_Exception e); [by intros [= <- <-]|done].
  - intros [= <- <-] _. split; [done|]. exists pipeline. split; [done|].
    destruct g; simpl in Hdrain; try done.
    by destruct (drain g).
  - cbv zeta. destruct (sf_write _ _ _) as [e|buffer].
    + destruct (exc_is_Exception e); [by intros [= <- <-]|done].
    + by intros [= <- <-].
Qed.

(** C2. When the synthesis model handle is unavailable ([tts_pipeline]
    is [None]), the /tts handler returns at once the response with
    status 500 and the plain-text body "Model not available. Check
    server logs."; the world is unchanged, so the model was not
    invoked. *)
Theorem tts_model_unavailable request w :
  text_to_speech (sample := sample) None sf_write request w
    = (inr model_not_available, w) ∧
  status_code model_not_available = 500 ∧
  content model_not_available = Text (lit "Model not available. Check server logs.").
Proof. done. Qed.

(** C3. When the model produces the empty sequence of chunks, the /tts
    handler returns status 400 with the body "No audio generated for
    the provided text."; and the condition is told apart from an
    internal failure: an exception caught by the handler gives status
    500, and a response with status 400 arises from the empty sequence
    only. *)
Theorem tts_no_audio_400 (pipeline : KPipeline sample) request w :
  pipeline (text request) (voice request) = inr Stop →
  text_to_speech (Some pipeline) sf_write request w
    = (inr no_audio_generated,
       logged w [TtsCalled (text request) (voice request); GenNext]) ∧
  status_code no_audio_generated = 400 ∧
  content no_audio_generated = Text (lit "No audio generated for the provided text.") ∧
  (∀ request' w0 e w1,
     tts_try sf_write pipeline request' w0 = (inl e, w1) →
     exc_is_Exception e = true →
     ∃ w2, text_to_speech (Some pipeline) sf_write request' w0
             = (inr (internal_server_error e), w2) ∧
           status_code (internal_server_error e) = 500) ∧
  (∀ request' w0 r w1,
     text_to_speech (Some pipeline) sf_write request' w0 = (inr r, w1) →
     status_code r = 400 →
     pipeline (text request') (voice request') = inr Stop).
Proof.
  intros Hcall. repeat split.
  - by rewrite text_to_speech_unfold, tts_try_spec, Hcall.
  - intros request' w0 e w1 Htry He.
    rewrite (text_to_speech_except _ _ _ _ _ Htry), He. eauto.
  - intros request' w0 r w1 Hr H400.
    destruct (text_to_speech_400 _ _ _ _ _ Hr H400) as (_ & p & [= <-] & Hp).
    done.
Qed.

(** C4. When the model produces a non-empty sequence of chunks, the
    /tts handler advances the generator until it is exhausted (once per
    item and once more), hands the encoder the concatenation of the
    chunks in the order they were produced, and returns what the
    encoder wrote; if the encoder raises, the exception takes the way
    of the [except] clause. *)
Theorem tts_concatenates_in_order (pipeline : KPipeline sample) request items w :
  items ≠ [] →
  pipeline (text request) (voice request) = inr (yields items) →
  let audio_data := List.concat (map audio items) in
  let w' := logged w (TtsCalled (text request) (voice request)
                        :: repeat GenNext (S (length items))
                        ++ [SfWriteCalled 24000 (lit "WAV")]) in
  match sf_write audio_data 24000 (lit "WAV") with
  | inr buffer =>
      text_to_speech (Some pipeline) sf_write request w
        = (inr (mkResponse (Bytes buffer) 200 (Some (lit "audio/wav"))), w')
  | inl e =>
      fst (text_to_speech (Some pipeline) sf_write request w)
        = if exc_is_Exception e then inr (internal_server_error e) else inl e
  end.
Proof.
  intros Hne Hcall. cbv zeta.
  rewrite text_to_speech_unfold, tts_try_spec, Hcall, drain_yields.
  unfold tts_events. rewrite pulls_yields.
  destruct items as [|item items]; [done|]. cbn [map]. cbv zeta.
  destruct (sf_write _ _ _) as [e|buffer]; [|done].
  by destruct (exc_is_Exception e).
Qed.

(** C5. A response of the /tts handler with status 200 has as body the
    bytes the encoder wrote for the concatenated chunks at the sample
    rate 24000 in the format "WAV", and the media type audio/wav. *)
Theorem tts_success_is_wav (tts_pipeline : option (KPipeline sample)) request w r w' :
  text_to_speech tts_pipeline sf_write request w = (inr r, w') →
  status_code r = 200 →
  ∃ pipeline items buffer,
    tts_pipeline = Some pipeline ∧
    pipeline (text request) (voice request) = inr (yields items) ∧
    items ≠ [] ∧
    sf_write (List.concat (map audio items)) 24000 (lit "WAV") = inr buffer ∧
    r = mkResponse (Bytes buffer) 200 (Some (lit "audio/wav")).
Proof.
  destruct tts_pipeline as [pipeline|]; [|by intros [= <- <-]].
  rewrite text_to_speech_unfold, tts_try_spec.
  destruct (pipeline _ _) as [e|g] eqn:Hcall.
  { destruct (exc_is_Exception e); [by intros [= <- <-]|done]. }
  destruct (drain g) as [e|[|chunk chunks]] eqn:Hdrain.
  - destruct (exc_is_Exception e); [by intros [= <- <-]|done].
  - by intros [= <- <-].
  - cbv zeta. destruct (sf_write _ _ _) as [e|buffer] eqn:Hwrite.
    + destruct (exc_is_Exception e); [by intros [= <- <-]|done].
    + intros [= <- <-] _.
      destruct (drain_inr _ _ Hdrain) as (items & -> & Hchunks).
      exists pipeline, items, buffer. rewrite <- Hchunks.
      repeat split; try done.
      intros ->. done.
Qed.


End SynthesisFacts.

(** ** Transcription *)

Section TranscriptionFacts.

Variable asr_model : str → gmap str bytes → pyexc + gmap str pyval.
Variable tmp_names : nat → str.
Variable TMP_MAX : nat.
Variable disk_error : bytes → option pyexc.
Variable buffer_size : nat.

Implicit Types (file : UploadFile) (w : world) (name ct : str).

Local Abbreviation transcribe_audio' :=
  (transcribe_audio asr_model tmp_names TMP_MAX disk_error buffer_size).
Local Abbreviation transcribe_try' :=
  (transcribe_try asr_model tmp_names TMP_MAX disk_error buffer_size).
Local Abbreviation mkstemp' := (mkstemp tmp_names).

(** The name [tempfile] finds is not a file yet, and it is not empty. *)
Lemma mkstemp_fresh (attempts k : nat) (files : gmap str bytes) name :
  mkstemp' attempts k files = inr name →
  files !! name = None ∧ truthy (Some name) = true.
Proof.
  revert k. induction attempts as [|attempts IH]; intros k; simpl; [done|].
  destruct (files !! (tmp_names k ++ lit ".wav")) eqn:Hfile; [by apply IH|].
  intros [= <-]. split; [done|].
  by destruct (tmp_names k).
Qed.

(** No error of the disk is no error of the operating system. *)
Lemma os_write_error_None (data : bytes) :
  disk_error data = None → os_write_error disk_error data = None.
Proof. by destruct data. Qed.

(** The [finally] block removes the file once [tmp_file_path] is set. *)
Lemma transcribe_finally_removes w name (held : bytes) (events : list event) :
  fs w !! name = None →
  truthy (Some name) = true →
  transcribe_finally (Locals (World (<[name := held]> (fs w)) events) (Some name))
    = World (fs w) events.
Proof.
  intros Hfresh Htruthy. unfold transcribe_finally. cbn [the_world tmp_file_path].
  rewrite Htruthy. unfold os_path_exists. cbn [fs].
  rewrite lookup_insert_eq, bool_decide_eq_true_2 by eauto.
  unfold os_remove. cbn [andb fs log]. by rewrite delete_insert_id.
Qed.

(** [transcribe_audio] on an upload with an audio content type, case by
    case.  An error of the disk is raised by [write] when the upload is
    longer than the buffer, and when the file is closed otherwise. *)
Lemma transcribe_audio_spec file w ct :
  content_type file = Some ct →
  startswith ct (lit "audio/") = true →
  transcribe_audio' file w =
    match mkstemp' TMP_MAX 0 (fs w) with
    | inl e => (failure e, w)
    | inr name =>
        let created := World (<[name := []]> (fs w)) (log w) in
        match read file with
        | inl e => (failure e, created)
        | inr data =>
            match os_write_error disk_error data with
            | Some e =>
                if (length data <=? buffer_size)%nat
                then (failure e, w)
                else (failure e, created)
            | None =>
                (transcribed (asr_model name (<[name := data]> (fs w))),
                 logged w [AsrCalled name])
            end
        end
    end.
Proof.
  intros Hct Haudio. unfold transcribe_audio.
  rewrite Hct, Haudio. cbn [negb].
  unfold transcribe_try, NamedTemporaryFile.
  unfold bind at 1. cbn [the_world tmp_file_path].
  destruct (mkstemp' TMP_MAX 0 (fs w)) as [e|name] eqn:Hname.
  { destruct w. done. }
  destruct (mkstemp_fresh _ _ _ _ Hname) as [Hfresh Htruthy].
  unfold bind at 1, lift at 1.
  destruct (read file) as [e|data]; [done|].
  assert (Hrest : ∀ held,
    (let '(r, l) :=
       (result <- transcribe asr_model name ;;
        value <- lift (getitem result (lit "text")) ;;
        stripped <- lift (py_strip value) ;;
        ret [(lit "transcribed_text", stripped)])
         (Locals (World (<[name := held]> (fs w)) (log w)) (Some name)) in
     (match r with
      | inr d => Returned d
      | inl e =>
          if exc_is_Exception e
          then HTTPException 500 (lit "An error occurred: " ++ exc_str e)
          else Unhandled e
      end, transcribe_finally l))
    = (transcribed (asr_model name (<[name := held]> (fs w))), logged w [AsrCalled name])).
  { intros held. unfold bind at 1, transcribe at 1. cbn [the_world tmp_file_path fs log].
    unfold emit. cbn [fs log].
    unfold transcribed, stripped_text, logged.
    destruct (asr_model name _) as [e|result];
      [by rewrite transcribe_finally_removes|].
    unfold bind at 1, lift at 1.
    destruct (getitem result (lit "text")) as [e|value];
      [by rewrite transcribe_finally_removes|].
    unfold bind, lift, ret.
    destruct (py_strip value) as [e|stripped];
      by rewrite transcribe_finally_removes. }
  unfold bind at 1, tmp_file_write at 1.
  destruct (length data <=? buffer_size)%nat.
  - (* the data stays in the buffer until the file is closed *)
    unfold ret at 1. unfold bind at 1, set_tmp_file_path at 1.
    cbn [the_world tmp_file_path].
    unfold bind at 1, tmp_file_close at 1, raw_write at 1.
    cbn [the_world tmp_file_path fs log].
    destruct (os_write_error disk_error data) as [e|].
    + rewrite transcribe_finally_removes by done. by destruct w.
    + rewrite lookup_insert_eq, insert_insert_eq. cbn [default app].
      apply Hrest.
  - (* the data is written at once *)
    unfold bind at 1, raw_write at 1. cbn [the_world tmp_file_path fs log].
    destruct (os_write_error disk_error data) as [e|]; [done|].
    rewrite lookup_insert_eq, insert_insert_eq. cbn [default app].
    unfold ret at 1. unfold bind at 1, set_tmp_file_path at 1.
    cbn [the_world tmp_file_path].
    unfold bind at 1, tmp_file_close at 1, raw_write at 1.
    cbn [the_world tmp_file_path fs log os_write_error].
    rewrite lookup_insert_eq, insert_insert_eq, app_nil_r. cbn [default].
    apply Hrest.
Qed.

(** On an upload with an audio content type the temporary file is gone
    when the handler ends, and no other file changed, once
    [tmp_file.write] has returned: when the upload fits the buffer, or
    when the disk takes it; whatever the model does after that. *)
Lemma tmp_file_removed_once_written file w ct name data :
  content_type file = Some ct →
  startswith ct (lit "audio/") = true →
  mkstemp' TMP_MAX 0 (fs w) = inr name →
  read file = inr data →
  (length data <=? buffer_size)%nat = true ∨ disk_error data = None →
  fs (snd (transcribe_audio' file w)) = fs w ∧
  fs (snd (transcribe_audio' file w)) !! name = None.
Proof.
  intros Hct Haudio Hname Hread Hwritten.
  destruct (mkstemp_fresh _ _ _ _ Hname) as [Hfresh _].
  rewrite (transcribe_audio_spec _ _ _ Hct Haudio), Hname, Hread. cbv zeta.
  destruct Hwritten as [Hfits|Hdisk].
  - rewrite Hfits. by destruct (os_write_error disk_error data).
  - by rewrite (os_write_error_None _ Hdisk).
Qed.

(** C1. The temporary file outlives the call on two ways out of the
    handler.  The name [tempfile] found is not a file before the call,
    and it is a file when the handler has ended exactly when
    [await file.read()] raised, or when the upload is longer than the
    buffer of the file object and writing it raised: on both ways
    [tmp_file_path] is not assigned yet, and the [finally] block removes
    nothing.  (An error of the disk on a shorter upload is raised when
    the file is closed, after the assignment, and the file is removed.) *)
Theorem transcribe_leaves_tmp_file_behind file w ct name :
  content_type file = Some ct →
  startswith ct (lit "audio/") = true →
  mkstemp' TMP_MAX 0 (fs w) = inr name →
  fs w !! name = None ∧
  (is_Some (fs (snd (transcribe_audio' file w)) !! name) ↔
   (∃ e, read file = inl e) ∨
   (∃ data e, read file = inr data ∧
              (length data <=? buffer_size)%nat = false ∧
              disk_error data = Some e)).
Proof.
  intros Hct Haudio Hname.
  destruct (mkstemp_fresh _ _ _ _ Hname) as [Hfresh _]. split; [done|].
  rewrite (transcribe_audio_spec _ _ _ Hct Haudio), Hname. cbv zeta.
  destruct (read file) as [e|data] eqn:Hread.
  { cbn [snd fs]. rewrite lookup_insert_eq. split; eauto. }
  destruct (os_write_error disk_error data) as [e|] eqn:Hos.
  - destruct (length data <=? buffer_size)%nat eqn:Hfits; cbn [snd fs].
    + rewrite Hfresh. split; [by intros [? ?]|].
      intros [[? ?]|(? & ? & [= <-] & ? & ?)]; congruence.
    + rewrite lookup_insert_eq. split; [|eauto]. intros _. right.
      exists data, e. destruct data; [done|]. done.
  - cbn [snd logged fs]. rewrite Hfresh. split; [by intros [? ?]|].
    intros [[? ?]|(? & e & [= <-] & Hlong & Hdisk)]; [done|].
    destruct data; [by cbn in Hlong|]. cbn in Hos. congruence.
Qed.

(** C6. An upload whose declared content type does not start with
    "audio/" is rejected with [HTTPException] 400, which FastAPI sends
    as status 400; the world is unchanged: the model was not invoked
    and no temporary file was created. *)
Theorem transcribe_rejects_non_audio file w ct :
  content_type file = Some ct →
  startswith ct (lit "audio/") = false →
  transcribe_audio' file w
    = (HTTPException 400 (lit "Invalid file type. Please upload an audio file."), w) ∧
  status_code <$> respond (fst (transcribe_audio' file w)) = Some 400.
Proof.
  intros Hct Haudio. unfold transcribe_audio. by rewrite Hct, Haudio.
Qed.

(** C7. When the content type is accepted and the model succeeds on the
    temporary file, with a result whose "text" is the string [t0], the
    handler returns [{"transcribed_text": t}], sent with status 200,
    where [t] is [t0] without the white space around it: [t0] is [t]
    between two blank strings, and [t] neither starts nor ends with
    white space. *)
Theorem transcribe_returns_stripped_text file w ct name data result t0 :
  content_type file = Some ct →
  startswith ct (lit "audio/") = true →
  mkstemp' TMP_MAX 0 (fs w) = inr name →
  read file = inr data →
  disk_error data = None →
  asr_model name (<[name := data]> (fs w)) = inr result →
  result !! lit "text" = Some (PyStr t0) →
  ∃ t,
    transcribe_audio' file w
      = (Returned [(lit "transcribed_text", t)], logged w [AsrCalled name]) ∧
    respond (fst (transcribe_audio' file w))
      = Some (mkResponse (Json [(lit "transcribed_text", t)]) 200
                (Some (lit "application/json"))) ∧
    t = strip t0 ∧
    (∃ l r, t0 = l ++ t ++ r ∧ blank l = true ∧ blank r = true) ∧
    (∀ ch, head t = Some ch → isspace ch = false) ∧
    (∀ ch, last t = Some ch → isspace ch = false).
Proof.
  intros Hct Haudio Hname Hread Hdisk Hasr Htext. exists (strip t0).
  rewrite (transcribe_audio_spec _ _ _ Hct Haudio), Hname, Hread,
    (os_write_error_None _ Hdisk), Hasr.
  unfold transcribed, stripped_text, getitem. rewrite Htext. cbn [py_strip].
  destruct (strip_spec t0) as (l & r & Ht0 & Hl & Hr & Hhead & Hlast).
  repeat split; try done. by exists l, r.
Qed.

(** C8. When the [try] block of the handler raises an exception [e]
    after the content-type check (the temporary file cannot be created
    or written, the model raises, the result has no usable text), the
    handler raises [HTTPException] 500 with the detail "An error
    occurred: " followed by [str(e)], sent as status 500 with the body
    [{"detail": ...}]; nothing is returned. *)
Theorem transcribe_failure_500 file w ct e l :
  content_type file = Some ct →
  startswith ct (lit "audio/") = true →
  transcribe_try' file (Locals w None) = (inl e, l) →
  exc_is_Exception e = true →
  fst (transcribe_audio' file w)
    = HTTPException 500 (lit "An error occurred: " ++ exc_str e) ∧
  respond (fst (transcribe_audio' file w))
    = Some (mkResponse (Json [(lit "detail", lit "An error occurred: " ++ exc_str e)]) 500
              (Some (lit "application/json"))) ∧
  (∀ d, fst (transcribe_audio' file w) ≠ Returned d).
Proof.
  intros Hct Haudio Htry He. unfold transcribe_audio.
  rewrite Hct, Haudio. cbn [negb]. rewrite Htry, He. done.
Qed.

(** The [try] block raises what the model raises. *)
Lemma transcribe_try_model_raises file w name data e :
  mkstemp' TMP_MAX 0 (fs w) = inr name →
  read file = inr data →
  disk_error data = None →
  asr_model name (<[name := data]> (fs w)) = inl e →
  ∃ l, transcribe_try' file (Locals w None) = (inl e, l).
Proof.
  intros Hname Hread Hdisk Hasr.
  assert (Hempty : os_write_error disk_error [] = None) by done.
  pose proof (os_write_error_None _ Hdisk) as Hos.
  unfold transcribe_try, NamedTemporaryFile, bind, lift, tmp_file_write, tmp_file_close,
    raw_write, set_tmp_file_path, transcribe, ret.
  cbn [the_world tmp_file_path]. rewrite Hname, Hread.
  destruct (length data <=? buffer_size)%nat;
    repeat (progress (rewrite ?Hos, ?Hempty, ?lookup_insert_eq, ?insert_insert_eq,
                        ?app_nil_r; cbn));
    rewrite Hasr; eauto.
Qed.

(** C10. For an upload with no declared content type the content-type
    check raises [AttributeError], which leaves the handler, and the
    world is unchanged; the handler raises [HTTPException] 400 exactly
    when a content type is present and does not start with "audio/". *)
Theorem transcribe_absent_content_type file w :
  (content_type file = None →
   transcribe_audio' file w
     = (Unhandled (AttributeError (lit "'NoneType' object has no attribute 'startswith'")),
        w)) ∧
  ((∃ detail, fst (transcribe_audio' file w) = HTTPException 400 detail) ↔
   (∃ ct, content_type file = Some ct ∧ startswith ct (lit "audio/") = false)).
Proof.
  unfold transcribe_audio. split; [by intros ->|].
  destruct (content_type file) as [ct|].
  - destruct (startswith ct (lit "audio/")) eqn:Haudio; cbn [negb].
    + split; [|intros (? & [= <-] & ?); congruence].
      destruct (transcribe_try' file (Locals w None)) as [[e|d] l].
      * cbn [fst]. destruct (exc_is_Exception e); by intros [? ?].
      * by intros [? ?].
    + split; [by exists ct|]. intros _. by eexists.
  - split; [by intros [? ?]|by intros (? & ? & ?)].
Qed.

End TranscriptionFacts.

(** * The handlers on concrete requests *)

(** A full disk and an upload of 10000 bytes, longer than the buffer:
    [/tmp/tmp.wav] is not a file before the call and is one after it. *)
Lemma transcribe_leaves_tmp_file_behind_witness :
  fs Fake.w0 !! lit "/tmp/tmp.wav" = None ∧
  is_Some (fs (snd (transcribe_audio Fake.asr_model Fake.tmp_names 100 Fake.disk_full
                      Fake.buffer_size Fake.long_upload Fake.w0))
             !! lit "/tmp/tmp.wav").
Proof.
  destruct (transcribe_leaves_tmp_file_behind Fake.asr_model Fake.tmp_names 100
              Fake.disk_full Fake.buffer_size Fake.long_upload Fake.w0
              (lit "audio/wav") (lit "/tmp/tmp.wav") eq_refl eq_refl eq_refl)
    as [Hbefore Hafter].
  split; [exact Hbefore|]. apply Hafter. right.
  exists (repeat Byte.x00 (N.to_nat 10000)),
         (PyExc (lit "OSError") true (lit "[Errno 28] No space left on device")).
  split; [reflexivity|]. split; [vm_compute; reflexivity|reflexivity].
Defined.

(** The outcome of that call. *)
Example transcribe_long_upload_on_full_disk :
  fst (transcribe_audio Fake.asr_model Fake.tmp_names 100 Fake.disk_full
         Fake.buffer_size Fake.long_upload Fake.w0)
    = HTTPException 500 (lit "An error occurred: [Errno 28] No space left on device").
Proof. vm_compute. reflexivity. Qed.

(** A full disk and an upload of four bytes: the error is raised when
    the file is closed, and the file is removed. *)
Example transcribe_short_upload_on_full_disk :
  let '(out, after) :=
    transcribe_audio Fake.asr_model Fake.tmp_names 100 Fake.disk_full Fake.buffer_size
      Fake.wav_upload Fake.w0 in
  out = HTTPException 500 (lit "An error occurred: [Errno 28] No space left on device") ∧
  fs after = ∅.
Proof. vm_compute. done. Qed.

(** A full disk and an empty upload: nothing is written, and the model
    is called on the empty file. *)
Example transcribe_empty_upload_on_full_disk :
  let '(out, after) :=
    transcribe_audio Fake.asr_model Fake.tmp_names 100 Fake.disk_full Fake.buffer_size
      (mkUploadFile (Some (lit "audio/wav")) (inr [])) Fake.w0 in
  out = Returned [(lit "transcribed_text", lit "hello world")] ∧
  fs after = ∅ ∧
  log after = [AsrCalled (lit "/tmp/tmp.wav")].
Proof. vm_compute. done. Qed.

(** An upload that cannot be read: the file stays. *)
Example transcribe_unreadable_upload :
  let '(out, after) :=
    transcribe_audio Fake.asr_model Fake.tmp_names 100 Fake.disk_ok Fake.buffer_size
      Scenario.broken_upload Fake.w0 in
  out = HTTPException 500 (lit "An error occurred: client disconnected") ∧
  is_Some (fs after !! lit "/tmp/tmp.wav").
Proof. vm_compute. split; [done|eauto]. Qed.

(** The same call on a disk with room removes the file. *)
Example transcribe_removes_tmp_file_on_success :
  let '(out, after) :=
    transcribe_audio Fake.asr_model Fake.tmp_names 100 Fake.disk_ok Fake.buffer_size
      Fake.wav_upload Fake.w0 in
  out = Returned [(lit "transcribed_text", lit "hello world")] ∧
  fs after = ∅ ∧
  log after = [AsrCalled (lit "/tmp/tmp.wav")].
Proof. vm_compute. done. Qed.

(** And so does a call whose model fails. *)
Example transcribe_removes_tmp_file_on_model_failure :
  let '(out, after) :=
    transcribe_audio Fake.asr_model_broken Fake.tmp_names 100 Fake.disk_ok Fake.buffer_size
      Fake.wav_upload Fake.w0 in
  out = HTTPException 500 (lit "An error occurred: Failed to load audio") ∧
  fs after = ∅.
Proof. vm_compute. done. Qed.

Lemma tts_no_audio_400_witness :
  text_to_speech (Some Fake.skipping_pipeline) Fake.sf_write Fake.spaces Fake.w0
    = (inr no_audio_generated,
       logged Fake.w0 [TtsCalled (lit "   ") (lit "af_heart"); GenNext]).
Proof.
  exact (proj1 (tts_no_audio_400 Fake.sf_write Fake.skipping_pipeline
                  Fake.spaces Fake.w0 eq_refl)).
Defined.

(** The chunks [A], [B], [C] give the encoding of [A ++ B ++ C]. *)
Lemma tts_concatenates_in_order_witness :
  ∃ buffer,
    Fake.sf_write (Fake.A ++ Fake.B ++ Fake.C) 24000 (lit "WAV") = inr buffer ∧
    fst (text_to_speech (Some Fake.abc_pipeline) Fake.sf_write Fake.hello Fake.w0)
      = inr (mkResponse (Bytes buffer) 200 (Some (lit "audio/wav"))).
Proof.
  eexists. split; [reflexivity|].
  refine (f_equal fst
    (tts_concatenates_in_order Fake.sf_write Fake.abc_pipeline Fake.hello
       [mkResult (lit "Hello world.") (lit "a") Fake.A;
        mkResult (lit "Hello world.") (lit "b") Fake.B;
        mkResult (lit "Hello world.") (lit "c") Fake.C]
       Fake.w0 _ eq_refl)).
  discriminate.
Defined.

Lemma tts_success_is_wav_witness :
  ∃ pipeline items buffer,
    Some Fake.abc_pipeline = Some pipeline ∧
    pipeline (text Fake.hello) (voice Fake.hello) = inr (yields items) ∧
    items ≠ [] ∧
    Fake.sf_write (List.concat (map audio items)) 24000 (lit "WAV") = inr buffer ∧
    fst (text_to_speech (Some Fake.abc_pipeline) Fake.sf_write Fake.hello Fake.w0)
      = inr (mkResponse (Bytes buffer) 200 (Some (lit "audio/wav"))).
Proof.
  let v := eval vm_compute in
      (text_to_speech (Some Fake.abc_pipeline) Fake.sf_write Fake.hello Fake.w0) in
  match v with
  | (inr ?r, ?w') =>
      destruct (tts_success_is_wav Fake.sf_write (Some Fake.abc_pipeline) Fake.hello
                  Fake.w0 r w' eq_refl eq_refl)
        as (pipeline & items & buffer & Hp & Hcall & Hne & Hwrite & Hr)
  end.
  exists pipeline, items, buffer. repeat split; try assumption.
  rewrite <- Hr. reflexivity.
Defined.



(** An exception while the generator is iterated, and an exception of
    the encoder, are internal failures: status 500 with the message. *)
Example tts_failing_pipeline_500 :
  text_to_speech (Some Fake.failing_pipeline) Fake.sf_write Fake.hello Fake.w0
    = (inr (mkResponse (Text (lit "Internal Server Error: out of memory")) 500 None),
       logged Fake.w0
         [TtsCalled (lit "Hello world.") (lit "af_heart"); GenNext; GenNext;
          Printed (lit "Error during TTS generation: out of memory")]).
Proof. reflexivity. Qed.

Example tts_broken_encoder_500 :
  fst (text_to_speech (Some Fake.abc_pipeline) Fake.sf_write_broken Fake.hello Fake.w0)
    = inr (mkResponse (Text (lit "Internal Server Error: Error opening file")) 500 None).
Proof. reflexivity. Qed.

Lemma transcribe_rejects_non_audio_witness :
  transcribe_audio Fake.asr_model Fake.tmp_names 100 Fake.disk_ok Fake.buffer_size Fake.text_upload Fake.w0
    = (HTTPException 400 (lit "Invalid file type. Please upload an audio file."), Fake.w0).
Proof.
  exact (proj1 (transcribe_rejects_non_audio Fake.asr_model Fake.tmp_names 100
                  Fake.disk_ok Fake.buffer_size Fake.text_upload Fake.w0 (lit "text/plain")
                  eq_refl eq_refl)).
Defined.

Lemma transcribe_returns_stripped_text_witness :
  fst (transcribe_audio Fake.asr_model Fake.tmp_names 100 Fake.disk_ok Fake.buffer_size
         Fake.wav_upload Fake.w0)
    = Returned [(lit "transcribed_text", lit "hello world")].
Proof.
  destruct (transcribe_returns_stripped_text Fake.asr_model Fake.tmp_names 100
              Fake.disk_ok Fake.buffer_size Fake.wav_upload Fake.w0
              (lit "audio/wav") (lit "/tmp/tmp.wav") (Fake.ascii_bytes "RIFF")
              {[ lit "text" := PyStr (lit "  hello world ");
                 lit "language" := PyStr (lit "en");
                 lit "segments" := PyObj (lit "list") ]}
              (lit "  hello world "))
    as (t & Hout & _ & Ht & _);
    [reflexivity .. | rewrite Hout, Ht; reflexivity].
Defined.

Lemma transcribe_failure_500_witness :
  fst (transcribe_audio Fake.asr_model_broken Fake.tmp_names 100 Fake.disk_ok Fake.buffer_size
         Fake.wav_upload Fake.w0)
    = HTTPException 500 (lit "An error occurred: Failed to load audio").
Proof.
  let v := eval vm_compute in
      (transcribe_try Fake.asr_model_broken Fake.tmp_names 100 Fake.disk_ok Fake.buffer_size
         Fake.wav_upload (Locals Fake.w0 None)) in
  match v with
  | (inl ?e, ?l) =>
      exact (proj1 (transcribe_failure_500 Fake.asr_model_broken Fake.tmp_names 100
                      Fake.disk_ok Fake.buffer_size Fake.wav_upload Fake.w0 (lit "audio/wav") e l
                      eq_refl eq_refl eq_refl eq_refl))
  end.
Defined.

Lemma transcribe_absent_content_type_witness :
  transcribe_audio Fake.asr_model Fake.tmp_names 100 Fake.disk_ok Fake.buffer_size
    Fake.untyped_upload Fake.w0
    = (Unhandled (AttributeError (lit "'NoneType' object has no attribute 'startswith'")),
       Fake.w0).
Proof.
  exact (proj1 (transcribe_absent_content_type Fake.asr_model Fake.tmp_names 100
                  Fake.disk_ok Fake.buffer_size Fake.untyped_upload Fake.w0) eq_refl).
Defined.

(** * Further properties of the handlers *)

(** ** Speech synthesis *)

Section SynthesisMore.

Context {sample : Type}.
Variable sf_write : list sample → Z → str → pyexc + bytes.
Implicit Types (pipeline : KPipeline sample) (request : TextRequest) (w : world).

(** Split a call of [text_to_speech] with an available model into the
    ways it can go. *)
Ltac tts_cases pipeline request w :=
  rewrite (text_to_speech_unfold sf_write pipeline request w),
          (tts_try_spec sf_write pipeline request w);
  let e := fresh "e" in
  let g := fresh "g" in
  let Hcall := fresh "Hcall" in
  let Hdrain := fresh "Hdrain" in
  let Hwrite := fresh "Hwrite" in
  let He := fresh "He" in
  destruct (pipeline (text request) (voice request)) as [e|g] eqn:Hcall;
  [ destruct (exc_is_Exception e) eqn:He
  | destruct (drain g) as [e|[|? ?]] eqn:Hdrain;
    [ destruct (exc_is_Exception e) eqn:He
    |
    | cbv zeta;
      destruct (sf_write _ 24000 (lit "WAV")) as [e|?] eqn:Hwrite;
      [ destruct (exc_is_Exception e) eqn:He | ] ] ].

(** X2. No [Exception] leaves the /tts handler.  An exception that does
    leave it is not an [Exception], and it is the one the [try] block
    raised: the model's or the encoder's, unchanged. *)
Theorem text_to_speech_raises_no_Exception
    (tts_pipeline : option (KPipeline sample)) request w e w' :
  text_to_speech tts_pipeline sf_write request w = (inl e, w') →
  exc_is_Exception e = false ∧
  ∃ pipeline, tts_pipeline = Some pipeline ∧
              tts_try sf_write pipeline request w = (inl e, w').
Proof.
  destruct tts_pipeline as [pipeline|]; [|discriminate].
  rewrite text_to_speech_unfold.
  destruct (tts_try sf_write pipeline request w) as [[e0|r] w0] eqn:Htry; [|discriminate].
  destruct (exc_is_Exception e0) eqn:He; [discriminate|].
  intros [= <- <-]. split; [done|]. by exists pipeline.
Qed.

(** The responses of [text_to_speech]. *)
Lemma text_to_speech_response_cases
    (tts_pipeline : option (KPipeline sample)) request w r w' :
  text_to_speech tts_pipeline sf_write request w = (inr r, w') →
  (∃ buffer, r = mkResponse (Bytes buffer) 200 (Some (lit "audio/wav"))) ∨
  r = no_audio_generated ∨
  r = model_not_available ∨
  (∃ e, r = internal_server_error e).
Proof.
  destruct tts_pipeline as [pipeline|].
  - tts_cases pipeline request w; intros [= <- <-]; eauto.
  - intros [= <- <-]. eauto.
Qed.

(** X3. A response of the /tts handler is of one of two kinds: status
    200 with a [bytes] body and the media type audio/wav, or status 400
    or 500 with a text body and no media type. *)
Theorem text_to_speech_response_kinds
    (tts_pipeline : option (KPipeline sample)) request w r w' :
  text_to_speech tts_pipeline sf_write request w = (inr r, w') →
  (status_code r = 200 ∧ media_type r = Some (lit "audio/wav") ∧
   ∃ buffer, content r = Bytes buffer) ∨
  ((status_code r = 400 ∨ status_code r = 500) ∧ media_type r = None ∧
   ∃ message, content r = Text message).
Proof.
  intros Hr.
  destruct (text_to_speech_response_cases _ _ _ _ _ Hr)
    as [[buffer ->]|[->|[->|[e ->]]]].
  - left. cbn. eauto.
  - right. cbn. eauto.
  - right. cbn. eauto.
  - right. cbn. eauto.
Qed.

(** X4. When the generator raises an [Exception] after it has yielded
    chunks, the chunks are dropped: the encoder is not called, the
    handler prints the message and answers 500 with it. *)
Theorem tts_generator_failure_discards_audio pipeline request g e w :
  pipeline (text request) (voice request) = inr g →
  drain g = inl e →
  exc_is_Exception e = true →
  text_to_speech (Some pipeline) sf_write request w
    = (inr (mkResponse (Text (lit "Internal Server Error: " ++ exc_str e)) 500 None),
       logged w (TtsCalled (text request) (voice request)
                   :: repeat GenNext (pulls g)
                   ++ [Printed (lit "Error during TTS generation: " ++ exc_str e)])).
Proof.
  intros Hcall Hdrain He.
  rewrite text_to_speech_unfold, tts_try_spec, Hcall, Hdrain, He, logged_logged.
  done.
Qed.

(** X5. With the model available, every call of the /tts handler invokes
    the model exactly once, first, with the text and the voice of the
    request; then it advances the generator; the encoder is called at
    most once, with the rate 24000 and the format "WAV"; at most one line
    is printed, last. *)
Theorem text_to_speech_call_discipline pipeline request w :
  ∃ n tail,
    log (snd (text_to_speech (Some pipeline) sf_write request w))
      = log w ++ TtsCalled (text request) (voice request) :: repeat GenNext n ++ tail ∧
    (tail = [] ∨ tail = [SfWriteCalled 24000 (lit "WAV")] ∨
     (∃ line, tail = [Printed line]) ∨
     (∃ line, tail = [SfWriteCalled 24000 (lit "WAV"); Printed line])).
Proof.
  tts_cases pipeline request w; unfold logged, tts_events; cbn [snd log];
    repeat (rewrite <- app_assoc; cbn [app]).
  - exists 0%nat. eexists. split; [reflexivity|]. eauto.
  - exists 0%nat, []. eauto.
  - exists (pulls g). eexists. split; [reflexivity|]. eauto.
  - exists (pulls g), []. rewrite app_nil_r. eauto.
  - exists (pulls g), []. rewrite app_nil_r. eauto.
  - exists (pulls g). eexists. split; [reflexivity|]. eauto 6.
  - exists (pulls g). eexists. split; [reflexivity|]. eauto.
  - exists (pulls g). eexists. split; [reflexivity|]. eauto.
Qed.

End SynthesisMore.

(** ** More on strings *)

Lemma lstrip_fixed (s : str) :
  (∀ ch, head s = Some ch → isspace ch = false) → lstrip s = s.
Proof. destruct s as [|c s]; [done|]. intros H. simpl. by rewrite (H c eq_refl). Qed.

Lemma rstrip_fixed (s : str) :
  (∀ ch, last s = Some ch → isspace ch = false) → rstrip s = s.
Proof.
  intros H. unfold rstrip. rewrite lstrip_fixed; [apply reverse_involutive|].
  intros ch Hch. apply H. by rewrite <- (reverse_involutive s), last_reverse.
Qed.

(** ** Transcription *)

Section TranscriptionMore.

Variable asr_model : str → gmap str bytes → pyexc + gmap str pyval.
Variable tmp_names : nat → str.
Variable TMP_MAX : nat.
Variable disk_error : bytes → option pyexc.
Variable buffer_size : nat.

Implicit Types (file : UploadFile) (w : world) (name ct path : str).

Local Abbreviation handler :=
  (transcribe_audio asr_model tmp_names TMP_MAX disk_error buffer_size).
Local Abbreviation spec :=
  (transcribe_audio_spec asr_model tmp_names TMP_MAX disk_error buffer_size).

(** The outcome of the handler once the upload is stored under [name]. *)
Lemma transcribe_audio_stored file w ct name data :
  content_type file = Some ct →
  startswith ct (lit "audio/") = true →
  mkstemp tmp_names TMP_MAX 0 (fs w) = inr name →
  read file = inr data →
  disk_error data = None →
  handler file w
    = (transcribed (asr_model name (<[name := data]> (fs w))), logged w [AsrCalled name]).
Proof.
  intros Hct Haudio Hname Hread Hdisk.
  by rewrite (spec _ _ _ Hct Haudio), Hname, Hread, (os_write_error_None _ _ Hdisk).
Qed.


(** X7. The handler invokes the model at most once, and only when the
    content type was accepted and the uploaded bytes were written (the
    operating system raised nothing for them; for an empty upload it is
    not asked), on a path that was not a file before the call; it logs
    nothing else. *)
Theorem transcribe_call_discipline file w :
  log (snd (handler file w)) = log w ∨
  ∃ ct name data,
    log (snd (handler file w)) = log w ++ [AsrCalled name] ∧
    content_type file = Some ct ∧ startswith ct (lit "audio/") = true ∧
    fs w !! name = None ∧
    read file = inr data ∧ os_write_error disk_error data = None.
Proof.
  destruct (content_type file) as [ct|] eqn:Hct;
    [|by left; unfold transcribe_audio; rewrite Hct].
  destruct (startswith ct (lit "audio/")) eqn:Haudio;
    [|by left; unfold transcribe_audio; rewrite Hct, Haudio].
  rewrite (spec _ _ _ Hct Haudio).
  destruct (mkstemp tmp_names TMP_MAX 0 (fs w)) as [e|name] eqn:Hname; [by left|].
  destruct (mkstemp_fresh _ _ _ _ _ Hname) as [Hfresh _].
  cbv zeta. destruct (read file) as [e|data] eqn:Hread; [by left|].
  destruct (os_write_error disk_error data) as [e|] eqn:Hdisk;
    [by left; destruct (length data <=? buffer_size)%nat|].
  right. exists ct, name, data. done.
Qed.

(** X8. When the result of the model has no key "text", the handler
    raises [HTTPException] 500 with the detail "An error occurred:
    'text'", and the files are as before the call. *)
Theorem transcribe_missing_text_key file w ct name data result :
  content_type file = Some ct →
  startswith ct (lit "audio/") = true →
  mkstemp tmp_names TMP_MAX 0 (fs w) = inr name →
  read file = inr data →
  disk_error data = None →
  asr_model name (<[name := data]> (fs w)) = inr result →
  result !! lit "text" = None →
  fst (handler file w) = HTTPException 500 (lit "An error occurred: 'text'") ∧
  fs (snd (handler file w)) = fs w.
Proof.
  intros Hct Haudio Hname Hread Hdisk Hasr Htext.
  rewrite (transcribe_audio_stored _ _ _ _ _ Hct Haudio Hname Hread Hdisk), Hasr.
  unfold transcribed, stripped_text, getitem. by rewrite Htext.
Qed.

(** X9. When the "text" of the result is not a string (it is [None],
    say), the handler raises [HTTPException] 500 with the message of the
    attribute error, and the files are as before the call. *)
Theorem transcribe_text_not_a_string file w ct name data result type_name :
  content_type file = Some ct →
  startswith ct (lit "audio/") = true →
  mkstemp tmp_names TMP_MAX 0 (fs w) = inr name →
  read file = inr data →
  disk_error data = None →
  asr_model name (<[name := data]> (fs w)) = inr result →
  result !! lit "text" = Some (PyObj type_name) →
  fst (handler file w)
    = HTTPException 500
        (lit "An error occurred: '" ++ type_name ++ lit "' object has no attribute 'strip'") ∧
  fs (snd (handler file w)) = fs w.
Proof.
  intros Hct Haudio Hname Hread Hdisk Hasr Htext.
  rewrite (transcribe_audio_stored _ _ _ _ _ Hct Haudio Hname Hread Hdisk), Hasr.
  unfold transcribed, stripped_text, getitem. by rewrite Htext.
Qed.

(** X10. When the model raises an exception that is not an [Exception]
    (the request is cancelled, the process is interrupted), the handler
    does not turn it into an [HTTPException]: it leaves the handler as it
    is.  The [finally] block still runs: the files are as before the
    call. *)
Theorem transcribe_non_Exception_cleanup file w ct name data e :
  content_type file = Some ct →
  startswith ct (lit "audio/") = true →
  mkstemp tmp_names TMP_MAX 0 (fs w) = inr name →
  read file = inr data →
  disk_error data = None →
  asr_model name (<[name := data]> (fs w)) = inl e →
  exc_is_Exception e = false →
  fst (handler file w) = Unhandled e ∧
  fs (snd (handler file w)) = fs w.
Proof.
  intros Hct Haudio Hname Hread Hdisk Hasr He.
  rewrite (transcribe_audio_stored _ _ _ _ _ Hct Haudio Hname Hread Hdisk), Hasr.
  unfold transcribed, failure. by rewrite He.
Qed.

(** X11. When the model hears nothing but white space, the handler
    returns the empty string: an answer, sent with status 200, not an
    error. *)
Theorem transcribe_blank_text_is_empty file w ct name data result t0 :
  content_type file = Some ct →
  startswith ct (lit "audio/") = true →
  mkstemp tmp_names TMP_MAX 0 (fs w) = inr name →
  read file = inr data →
  disk_error data = None →
  asr_model name (<[name := data]> (fs w)) = inr result →
  result !! lit "text" = Some (PyStr t0) →
  blank t0 = true →
  fst (handler file w) = Returned [(lit "transcribed_text", [])] ∧
  status_code <$> respond (fst (handler file w)) = Some 200.
Proof.
  intros Hct Haudio Hname Hread Hdisk Hasr Htext Hblank.
  rewrite (transcribe_audio_stored _ _ _ _ _ Hct Haudio Hname Hread Hdisk), Hasr.
  unfold transcribed, stripped_text, getitem. rewrite Htext. cbn [py_strip].
  by rewrite (strip_blank _ Hblank).
Qed.

(** X12. A text that neither starts nor ends with white space is
    returned as it is: the white space inside it is kept. *)
Theorem transcribe_keeps_inner_space file w ct name data result t0 :
  content_type file = Some ct →
  startswith ct (lit "audio/") = true →
  mkstemp tmp_names TMP_MAX 0 (fs w) = inr name →
  read file = inr data →
  disk_error data = None →
  asr_model name (<[name := data]> (fs w)) = inr result →
  result !! lit "text" = Some (PyStr t0) →
  (∀ ch, head t0 = Some ch → isspace ch = false) →
  (∀ ch, last t0 = Some ch → isspace ch = false) →
  fst (handler file w) = Returned [(lit "transcribed_text", t0)].
Proof.
  intros Hct Haudio Hname Hread Hdisk Hasr Htext Hhead Hlast.
  rewrite (transcribe_audio_stored _ _ _ _ _ Hct Haudio Hname Hread Hdisk), Hasr.
  unfold transcribed, stripped_text, getitem. rewrite Htext. cbn [py_strip fst].
  unfold strip. by rewrite (lstrip_fixed _ Hhead), (rstrip_fixed _ Hlast).
Qed.

(** The ways [transcribe_audio] ends. *)
Lemma transcribe_outcome_cases file w :
  (∃ t, fst (handler file w) = Returned [(lit "transcribed_text", t)]) ∨
  fst (handler file w)
    = HTTPException 400 (lit "Invalid file type. Please upload an audio file.") ∨
  (∃ e, exc_is_Exception e = true ∧
        fst (handler file w) = HTTPException 500 (lit "An error occurred: " ++ exc_str e)) ∨
  (content_type file = None ∧
   fst (handler file w)
     = Unhandled (AttributeError (lit "'NoneType' object has no attribute 'startswith'"))) ∨
  (∃ e, exc_is_Exception e = false ∧ fst (handler file w) = Unhandled e).
Proof.
  assert (Hfail : ∀ e,
    (∃ e', exc_is_Exception e' = true ∧
       failure (A := list (str * str)) e
         = HTTPException 500 (lit "An error occurred: " ++ exc_str e')) ∨
    (∃ e', exc_is_Exception e' = false ∧ failure (A := list (str * str)) e = Unhandled e')).
  { intros e. unfold failure. destruct (exc_is_Exception e) eqn:He; eauto. }
  destruct (content_type file) as [ct|] eqn:Hct;
    [|unfold transcribe_audio; rewrite Hct; cbn; eauto 6].
  destruct (startswith ct (lit "audio/")) eqn:Haudio;
    [|unfold transcribe_audio; rewrite Hct, Haudio; cbn; eauto].
  rewrite (spec _ _ _ Hct Haudio).
  destruct (mkstemp tmp_names TMP_MAX 0 (fs w)) as [e|name];
    [destruct (Hfail e); eauto 6|].
  cbv zeta. destruct (read file) as [e|data]; [destruct (Hfail e); eauto 6|].
  destruct (os_write_error disk_error data) as [e|];
    [destruct (length data <=? buffer_size)%nat; destruct (Hfail e); eauto 6|].
  cbn [fst]. unfold transcribed.
  destruct (asr_model _ _) as [e|result]; [destruct (Hfail e); eauto 6|].
  destruct (stripped_text result) as [e|t]; [destruct (Hfail e); eauto 6|]. eauto.
Qed.

(** X13. The ways the handler ends.  What it returns is a dictionary
    with the one key "transcribed_text".  An [HTTPException] it raises is
    the 400 of the content-type check or a 500 whose detail is "An error
    occurred: " and the message of an [Exception].  Any other exception
    leaves it only when the content type is absent or when the exception
    is not an [Exception]. *)
Theorem transcribe_outcomes file w :
  match fst (handler file w) with
  | Returned d => ∃ t, d = [(lit "transcribed_text", t)]
  | HTTPException status detail =>
      (status = 400 ∧ detail = lit "Invalid file type. Please upload an audio file.") ∨
      (status = 500 ∧
       ∃ e, exc_is_Exception e = true ∧ detail = lit "An error occurred: " ++ exc_str e)
  | Unhandled e =>
      (content_type file = None ∧
       e = AttributeError (lit "'NoneType' object has no attribute 'startswith'")) ∨
      exc_is_Exception e = false
  end.
Proof.
  destruct (transcribe_outcome_cases file w)
    as [[t ->]|[->|[(e & He & ->)|[[Hct ->]|(e & He & ->)]]]]; eauto 6.
Qed.

End TranscriptionMore.

(** ** Start-up *)

Section StartupFacts.

Context {sample : Type}.
Variable sf_write : list sample → Z → str → pyexc + bytes.
Implicit Types (constructed : pyexc + KPipeline sample) (w : world).

(** X14. When the constructor of the synthesis pipeline raises an
    [Exception] and the transcription model loads, the module still
    loads: it prints the message, and with the handle it is left with,
    every /tts request is answered 500 "Model not available", in a world
    it does not change. *)
Theorem startup_survives_tts_failure e asr w :
  exc_is_Exception e = true →
  match main_module (sample := sample) (inl e) (inr asr) w with
  | (inr (tts_pipeline, asr_model), w') =>
      asr_model = asr ∧
      w' = logged w [Printed (lit "Error initializing KPipeline: " ++ exc_str e)] ∧
      ∀ request w0,
        text_to_speech tts_pipeline sf_write request w0 = (inr model_not_available, w0)
  | (inl _, _) => False
  end.
Proof.
  intros He. unfold main_module, init_tts_pipeline, try_except, bind, lift, print, tell, ret.
  rewrite He. rewrite emit_logged. done.
Qed.

(** X15. When the transcription model does not load, the module raises,
    whatever became of the synthesis pipeline: no handler is served, the
    /tts handler included.  The exception is the loader's, or that of the
    pipeline's constructor when it is not an [Exception]. *)
Theorem startup_needs_whisper constructed e w :
  ∃ e', fst (main_module constructed (inl e) w) = inl e' ∧
        (e' = e ∨ (constructed = inl e' ∧ exc_is_Exception e' = false)).
Proof.
  unfold main_module, init_tts_pipeline, try_except, bind, lift, print, tell, ret.
  destruct constructed as [e0|pipeline]; [|by exists e; eauto].
  destruct (exc_is_Exception e0) eqn:He0; [by exists e; eauto|].
  exists e0. eauto.
Qed.

End StartupFacts.

(** ** The page *)

Lemma requests_of_app (page els : list element) :
  requests_of (page ++ els) = requests_of page ++ requests_of els.
Proof. apply omap_app. Qed.

Section PageFacts.

Variable requests_post : http_request → pyexc + http_response.
Variable isinstance : pyexc → str → bool.

Implicit Types (i : interaction) (page : list element).

Local Abbreviation tts_tab' := (tts_tab requests_post isinstance).
Local Abbreviation stt_tab' := (stt_tab requests_post isinstance).
Local Abbreviation app' := (app requests_post isinstance).

(** Run the combinators of the script. *)
Ltac run :=
  repeat progress
    (unfold try_excepts, bind, post, st, lift, ret, raise; cbn [dispatch fst snd]);
  repeat (rewrite <- app_assoc; cbn [app]).

(** X16. The text-to-speech tab and the /tts handler together.  When
    the button is pressed on a text that is not empty, the tab posts the
    text with the voice "af_heart"; if the response of the handler to
    that request comes back, the tab plays the bytes of a response with
    an audio body, and shows "Error from API: " and the text of any other
    response. *)
Theorem tts_tab_end_to_end {sample} (sf_write : list sample → Z → str → pyexc + bytes)
    (tts_pipeline : option (KPipeline sample)) i page w r w' resp :
  generate_clicked i = true →
  input_text i ≠ [] →
  let payload := [(lit "text", input_text i); (lit "voice", lit "af_heart")] in
  let req := PostJson (BACKEND_URL ++ lit "/tts") payload (Some 120) in
  let request := mkTextRequest (input_text i) (lit "af_heart") in
  text_to_speech tts_pipeline sf_write request w = (inr r, w') →
  requests_post req = inr resp →
  delivers r resp →
  parse_TextRequest payload = Some request ∧
  tts_tab' i page
    = (inr tt,
       page ++ [StHeader (lit "Text to Speech");
                StMarkdown (lit "Enter text and generate speech using the Kokoro TTS model.");
                StSpinner (lit "Generating audio...");
                RequestsPost req]
            ++ match content r with
               | Bytes buffer =>
                   [StAudio buffer (lit "audio/wav");
                    StSuccess (lit "Audio generated successfully!")]
               | Text message => [StError (lit "Error from API: " ++ message)]
               | Json _ => []
               end).
Proof.
  intros Hclick Htext payload req request Hr Hpost [Hstatus Hbody].
  split; [done|].
  unfold tts_tab, tts_tab_try. rewrite Hclick.
  destruct (input_text i) as [|c t] eqn:Hinput; [done|].
  fold payload. fold req. run. rewrite Hpost. run. rewrite Hstatus.
  destruct (text_to_speech_response_cases _ _ _ _ _ _ Hr)
    as [[buffer ->]|[->|[->|[e ->]]]]; cbn in Hbody |- *; rewrite Hbody; run; done.
Qed.

(** X17. The speech-to-text tab and the /transcribe/ handler together.
    For a recording that is not empty the tab posts it as the part [file]
    with the content type audio/wav; if the response to the outcome of
    the handler comes back, the tab writes the returned text between
    quotation marks, and for an [HTTPException] it shows its detail as an
    error from the backend. *)
Theorem stt_tab_end_to_end
    (asr_model : str → gmap str bytes → pyexc + gmap str pyval)
    (tmp_names : nat → str) (TMP_MAX : nat) (disk_error : bytes → option pyexc)
    (buffer_size : nat)
    i page (data : bytes) w r resp :
  st_audio_bytes i = Some data →
  data ≠ [] →
  let req := PostFiles (BACKEND_URL ++ lit "/transcribe/") (lit "file") (lit "audio.wav")
               data (lit "audio/wav") in
  let file := mkUploadFile (Some (lit "audio/wav")) (inr data) in
  let out := fst (transcribe_audio asr_model tmp_names TMP_MAX disk_error buffer_size file w) in
  respond out = Some r →
  requests_post req = inr resp →
  delivers r resp →
  parse_UploadFile req = Some file ∧
  stt_tab' i page
    = (inr tt,
       page ++ [StHeader (lit "Speech to Text");
                StMarkdown (lit "Record your voice, and the FastAPI backend will transcribe it.");
                StAudio data (lit "audio/wav");
                StMarkdown (lit "### Transcribing...");
                RequestsPost req]
            ++ match out with
               | Returned [(_, transcribed_text)] =>
                   [StSuccess (check_mark ++ lit " **Transcription Complete:**");
                    StWrite (lit "**You said:** " ++ [34%N] ++ transcribed_text ++ [34%N])]
               | HTTPException _ detail =>
                   [StError (cross_mark ++ lit " **Error from Backend:** " ++ detail)]
               | _ => []
               end).
Proof.
  intros Hrec Hdata req file out Hrespond Hpost [Hstatus Hbody].
  split; [done|].
  unfold stt_tab, stt_tab_try. rewrite Hrec.
  destruct data as [|b rest]; [done|].
  fold req. run. rewrite Hpost. run. rewrite Hstatus.
  destruct (transcribe_outcome_cases asr_model tmp_names TMP_MAX disk_error buffer_size file w)
    as [[t Hout]|[Hout|[(e & He & Hout)|[[_ Hout]|(e & He & Hout)]]]];
    fold out in Hout; rewrite Hout in Hrespond |- *; cbn in Hrespond;
    try discriminate; injection Hrespond as <-; cbn in Hbody |- *;
    rewrite Hbody; run; unfold json_get;
    rewrite ?insert_empty, ?lookup_singleton_eq; run; done.
Qed.

(** X18. No [Exception] leaves the speech-to-text tab: whatever the
    request raises, and whatever the response holds, the tab ends
    normally or with an exception that is not an [Exception]. *)
Theorem stt_tab_catches_every_Exception i page e page' :
  stt_tab requests_post isinstance i page = (inl e, page') →
  exc_is_Exception e = false.
Proof.
  unfold stt_tab. run.
  destruct (st_audio_bytes i) as [[|b rest]|]; [discriminate| |discriminate].
  run.
  match goal with
  | |- context [stt_tab_try ?post ?data ?s] =>
      destruct (stt_tab_try post data s) as [[e0|[]] s']
  end; [|discriminate].
  destruct (isinstance e0 _); [discriminate|].
  destruct (isinstance e0 _); [discriminate|].
  destruct (exc_is_Exception e0) eqn:He0; [discriminate|].
  by intros [= <- <-].
Qed.

(** X19. The text-to-speech tab has no such last clause.  When the
    request raises an exception that is neither a timeout nor a request
    exception, it leaves the tab and ends the run: the speech-to-text tab
    is not reached, with or without a recording. *)
Theorem tts_tab_exception_ends_the_run i page e :
  generate_clicked i = true →
  input_text i ≠ [] →
  let req := PostJson (BACKEND_URL ++ lit "/tts")
               [(lit "text", input_text i); (lit "voice", lit "af_heart")] (Some 120) in
  requests_post req = inl e →
  isinstance e (lit "requests.exceptions.Timeout") = false →
  isinstance e (lit "requests.exceptions.RequestException") = false →
  app' i page
    = (inl e,
       page ++ [StPageConfig (lit "Text to Speech & Speech to Text") (lit "wide");
                StTitle (speaking_head ++ lit " AI Audio Services");
                StMarkdown (lit "Use this app to generate speech from text or transcribe audio to text.");
                StTabs [lit "Text to Speech"; lit "Speech to Text"];
                StHeader (lit "Text to Speech");
                StMarkdown (lit "Enter text and generate speech using the Kokoro TTS model.");
                StSpinner (lit "Generating audio...");
                RequestsPost req]).
Proof.
  intros Hclick Htext req Hpost Htimeout Hrequest.
  unfold app, tts_tab, tts_tab_try. rewrite Hclick.
  destruct (input_text i) as [|c t] eqn:Hinput; [done|].
  fold req. run. rewrite Hpost. run. rewrite Htimeout, Hrequest. run. done.
Qed.

(** The requests a tab sends, however it ends. *)
Ltac count :=
  intros [= <- <-]; rewrite !requests_of_app, <- ?app_assoc; reflexivity.

Lemma tts_tab_requests i page out page' :
  tts_tab' i page = (out, page') →
  requests_of page' = requests_of page ++ tts_requests i.
Proof.
  unfold tts_tab, tts_tab_try, tts_requests.
  destruct (generate_clicked i); [destruct (input_text i) as [|c t]|]; run;
    [count| |count].
  destruct (requests_post _) as [e|resp]; run.
  - destruct (isinstance e _); [|destruct (isinstance e _)]; count.
  - destruct (resp_status resp =? 200); run; count.
Qed.

Lemma stt_tab_requests i page out page' :
  stt_tab' i page = (out, page') →
  requests_of page' = requests_of page ++ stt_requests i.
Proof.
  unfold stt_tab, stt_tab_try, stt_requests.
  destruct (st_audio_bytes i) as [[|b rest]|]; run; [count| |count].
  destruct (requests_post _) as [e|resp]; run.
  - destruct (isinstance e _); [|destruct (isinstance e _);
      [|destruct (exc_is_Exception e)]]; count.
  - destruct (resp_status resp =? 200); run;
      (destruct (resp_json resp) as [e|value]; run;
       [|destruct (json_get value _ _) as [e|found]; run]);
      repeat match goal with
        | |- context [isinstance ?e ?c] => destruct (isinstance e c)
        | |- context [exc_is_Exception ?e] => destruct (exc_is_Exception e)
        end;
      count.
Qed.

(** X20. The requests of a run that ends normally: one to /tts when
    the button is pressed on a text that is not empty, and after it one
    to /transcribe/ whenever the recorder holds a recording that is not
    empty, whether the button was pressed or not.  Nothing else is sent,
    and nothing is sent twice. *)
Theorem app_requests i page page' :
  app' i page = (inr tt, page') →
  requests_of page' = requests_of page ++ tts_requests i ++ stt_requests i.
Proof.
  unfold app. run.
  match goal with
  | |- context [tts_tab' i ?s] =>
      destruct (tts_tab' i s) as [[e|[]] page1] eqn:Htts
  end; [discriminate|].
  intros Hstt.
  rewrite (stt_tab_requests _ _ _ _ Hstt), (tts_tab_requests _ _ _ _ Htts).
  rewrite requests_of_app. cbn. by rewrite app_nil_r, app_assoc.
Qed.

End PageFacts.

(** * The further properties on concrete runs *)

Lemma text_to_speech_raises_no_Exception_witness :
  exc_is_Exception Scenario.cancelled = false ∧
  fst (text_to_speech (Some Scenario.interrupted_pipeline) Fake.sf_write Fake.hello Fake.w0)
    = inl Scenario.cancelled.
Proof.
  split; [|reflexivity].
  let v := eval vm_compute in
      (text_to_speech (Some Scenario.interrupted_pipeline) Fake.sf_write Fake.hello Fake.w0) in
  match v with
  | (inl ?e, ?w') =>
      exact (proj1 (text_to_speech_raises_no_Exception Fake.sf_write
                      (Some Scenario.interrupted_pipeline) Fake.hello Fake.w0 e w' eq_refl))
  end.
Defined.

Lemma text_to_speech_response_kinds_witness :
  ∃ r w', text_to_speech (Some Fake.abc_pipeline) Fake.sf_write Fake.hello Fake.w0
            = (inr r, w') ∧
          status_code r = 200 ∧ media_type r = Some (lit "audio/wav").
Proof.
  let v := eval vm_compute in
      (text_to_speech (Some Fake.abc_pipeline) Fake.sf_write Fake.hello Fake.w0) in
  match v with
  | (inr ?r, ?w') =>
      exists r, w'; split; [reflexivity|];
      destruct (text_to_speech_response_kinds Fake.sf_write (Some Fake.abc_pipeline)
                  Fake.hello Fake.w0 r w' eq_refl)
        as [(Hstatus & Hmedia & _)|([Hstatus|Hstatus] & _)];
      [exact (conj Hstatus Hmedia) | discriminate Hstatus | discriminate Hstatus]
  end.
Defined.

Lemma tts_generator_failure_discards_audio_witness :
  text_to_speech (Some Fake.failing_pipeline) Fake.sf_write Fake.hello Fake.w0
    = (inr (mkResponse (Text (lit "Internal Server Error: out of memory")) 500 None),
       logged Fake.w0
         [TtsCalled (lit "Hello world.") (lit "af_heart"); GenNext; GenNext;
          Printed (lit "Error during TTS generation: out of memory")]).
Proof.
  exact (tts_generator_failure_discards_audio Fake.sf_write Fake.failing_pipeline
           Fake.hello _ _ Fake.w0 eq_refl eq_refl eq_refl).
Defined.


Lemma transcribe_missing_text_key_witness :
  fst (transcribe_audio Scenario.asr_no_text Fake.tmp_names 100 Fake.disk_ok Fake.buffer_size
         Fake.wav_upload Fake.w0)
    = HTTPException 500 (lit "An error occurred: 'text'").
Proof.
  exact (proj1 (transcribe_missing_text_key Scenario.asr_no_text Fake.tmp_names 100
                  Fake.disk_ok Fake.buffer_size Fake.wav_upload Fake.w0 (lit "audio/wav")
                  (lit "/tmp/tmp.wav") (Fake.ascii_bytes "RIFF")
                  {[ lit "language" := PyStr (lit "en") ]}
                  eq_refl eq_refl eq_refl eq_refl eq_refl eq_refl eq_refl)).
Defined.

Lemma transcribe_text_not_a_string_witness :
  fst (transcribe_audio Scenario.asr_text_none Fake.tmp_names 100 Fake.disk_ok Fake.buffer_size
         Fake.wav_upload Fake.w0)
    = HTTPException 500
        (lit "An error occurred: 'NoneType' object has no attribute 'strip'").
Proof.
  exact (proj1 (transcribe_text_not_a_string Scenario.asr_text_none Fake.tmp_names 100
                  Fake.disk_ok Fake.buffer_size Fake.wav_upload Fake.w0 (lit "audio/wav")
                  (lit "/tmp/tmp.wav") (Fake.ascii_bytes "RIFF")
                  {[ lit "text" := PyObj (lit "NoneType") ]} (lit "NoneType")
                  eq_refl eq_refl eq_refl eq_refl eq_refl eq_refl eq_refl)).
Defined.

Lemma transcribe_non_Exception_cleanup_witness :
  fst (transcribe_audio Scenario.asr_cancelled Fake.tmp_names 100 Fake.disk_ok Fake.buffer_size
         Fake.wav_upload Fake.w0) = Unhandled Scenario.cancelled ∧
  fs (snd (transcribe_audio Scenario.asr_cancelled Fake.tmp_names 100 Fake.disk_ok Fake.buffer_size
             Fake.wav_upload Fake.w0)) = fs Fake.w0.
Proof.
  exact (transcribe_non_Exception_cleanup Scenario.asr_cancelled Fake.tmp_names 100
           Fake.disk_ok Fake.buffer_size Fake.wav_upload Fake.w0 (lit "audio/wav")
           (lit "/tmp/tmp.wav") (Fake.ascii_bytes "RIFF") Scenario.cancelled
           eq_refl eq_refl eq_refl eq_refl eq_refl eq_refl eq_refl).
Defined.

Lemma transcribe_blank_text_is_empty_witness :
  fst (transcribe_audio Scenario.asr_silence Fake.tmp_names 100 Fake.disk_ok Fake.buffer_size
         Fake.wav_upload Fake.w0)
    = Returned [(lit "transcribed_text", [])].
Proof.
  exact (proj1 (transcribe_blank_text_is_empty Scenario.asr_silence Fake.tmp_names 100
                  Fake.disk_ok Fake.buffer_size Fake.wav_upload Fake.w0 (lit "audio/wav")
                  (lit "/tmp/tmp.wav") (Fake.ascii_bytes "RIFF")
                  {[ lit "text" := PyStr [32; 10; 9; 160]%N ]} [32; 10; 9; 160]%N
                  eq_refl eq_refl eq_refl eq_refl eq_refl eq_refl eq_refl eq_refl)).
Defined.

Lemma transcribe_keeps_inner_space_witness :
  fst (transcribe_audio Scenario.asr_plain Fake.tmp_names 100 Fake.disk_ok Fake.buffer_size
         Fake.wav_upload Fake.w0)
    = Returned [(lit "transcribed_text", lit "hello  world")].
Proof.
  refine (transcribe_keeps_inner_space Scenario.asr_plain Fake.tmp_names 100
            Fake.disk_ok Fake.buffer_size Fake.wav_upload Fake.w0 (lit "audio/wav")
            (lit "/tmp/tmp.wav") (Fake.ascii_bytes "RIFF")
            {[ lit "text" := PyStr (lit "hello  world") ]} (lit "hello  world")
            eq_refl eq_refl eq_refl eq_refl eq_refl eq_refl eq_refl _ _);
    intros ch [= <-]; reflexivity.
Defined.

Lemma startup_survives_tts_failure_witness :
  main_module (sample := Z) (inl Scenario.no_weights) (inr Fake.asr_model) Fake.w0
    = (inr (None, Fake.asr_model),
       logged Fake.w0 [Printed (lit "Error initializing KPipeline: model weights not found")]) ∧
  fst (text_to_speech (sample := Z) None Fake.sf_write Fake.hello Fake.w0)
    = inr model_not_available.
Proof.
  pose proof (startup_survives_tts_failure (sample := Z) Fake.sf_write
                Scenario.no_weights Fake.asr_model Fake.w0 eq_refl) as H.
  change (Fake.asr_model = Fake.asr_model ∧
          logged Fake.w0 [Printed (lit "Error initializing KPipeline: " ++ exc_str Scenario.no_weights)]
            = logged Fake.w0 [Printed (lit "Error initializing KPipeline: " ++ exc_str Scenario.no_weights)] ∧
          ∀ request w0,
            text_to_speech (sample := Z) None Fake.sf_write request w0
              = (inr model_not_available, w0)) in H.
  destruct H as (_ & _ & H). split; [reflexivity|].
  by rewrite (H Fake.hello Fake.w0).
Defined.

(** White space only in the text area, and a service whose model
    produces nothing for it: the page sends the text, the service answers
    400, and the page shows the message of the service. *)
Lemma tts_tab_end_to_end_witness :
  tts_tab (Scenario.service (Some Fake.skipping_pipeline) Fake.asr_model)
    Scenario.isinstance Scenario.blank_click []
    = (inr tt,
       [StHeader (lit "Text to Speech");
        StMarkdown (lit "Enter text and generate speech using the Kokoro TTS model.");
        StSpinner (lit "Generating audio...");
        RequestsPost (PostJson (lit "http://127.0.0.1:8000/tts")
                        [(lit "text", lit "   "); (lit "voice", lit "af_heart")]
                        (Some 120));
        StError (lit "Error from API: No audio generated for the provided text.")]).
Proof.
  refine (proj2 (tts_tab_end_to_end
                   (Scenario.service (Some Fake.skipping_pipeline) Fake.asr_model)
                   Scenario.isinstance Fake.sf_write (Some Fake.skipping_pipeline)
                   Scenario.blank_click [] Fake.w0 no_audio_generated
                   (logged Fake.w0 [TtsCalled (lit "   ") (lit "af_heart"); GenNext])
                   (Scenario.render no_audio_generated)
                   eq_refl _ eq_refl eq_refl (conj eq_refl eq_refl))).
  discriminate.
Defined.

Lemma stt_tab_end_to_end_witness :
  stt_tab (Scenario.service None Fake.asr_model) Scenario.isinstance
    Scenario.recording_only []
    = (inr tt,
       [StHeader (lit "Speech to Text");
        StMarkdown (lit "Record your voice, and the FastAPI backend will transcribe it.");
        StAudio (Fake.ascii_bytes "RIFF") (lit "audio/wav");
        StMarkdown (lit "### Transcribing...");
        RequestsPost (PostFiles (lit "http://127.0.0.1:8000/transcribe/") (lit "file")
                        (lit "audio.wav") (Fake.ascii_bytes "RIFF") (lit "audio/wav"));
        StSuccess (check_mark ++ lit " **Transcription Complete:**");
        StWrite (lit "**You said:** " ++ [34%N] ++ lit "hello world" ++ [34%N])]).
Proof.
  refine (proj2 (stt_tab_end_to_end
                   (Scenario.service None Fake.asr_model) Scenario.isinstance
                   Fake.asr_model Fake.tmp_names 100 Fake.disk_ok Fake.buffer_size
                   Scenario.recording_only [] (Fake.ascii_bytes "RIFF") Fake.w0
                   (mkResponse (Json [(lit "transcribed_text", lit "hello world")]) 200
                      (Some (lit "application/json")))
                   (Scenario.render
                      (mkResponse (Json [(lit "transcribed_text", lit "hello world")]) 200
                         (Some (lit "application/json"))))
                   eq_refl _ eq_refl eq_refl (conj eq_refl eq_refl))).
  discriminate.
Defined.

Lemma stt_tab_catches_every_Exception_witness :
  fst (stt_tab Scenario.network_interrupted Scenario.isinstance Scenario.recording_only [])
    = inl Scenario.cancelled ∧
  exc_is_Exception Scenario.cancelled = false.
Proof.
  split; [reflexivity|].
  let v := eval vm_compute in
      (stt_tab Scenario.network_interrupted Scenario.isinstance Scenario.recording_only []) in
  match v with
  | (inl ?e, ?page') =>
      exact (stt_tab_catches_every_Exception Scenario.network_interrupted
               Scenario.isinstance Scenario.recording_only [] e page' eq_refl)
  end.
Defined.

Lemma tts_tab_exception_ends_the_run_witness :
  fst (app Scenario.network_interrupted Scenario.isinstance Scenario.text_and_recording [])
    = inl Scenario.cancelled ∧
  requests_of (snd (app Scenario.network_interrupted Scenario.isinstance
                      Scenario.text_and_recording []))
    = [PostJson (lit "http://127.0.0.1:8000/tts")
         [(lit "text", lit "Hello world."); (lit "voice", lit "af_heart")] (Some 120)].
Proof.
  pose proof (tts_tab_exception_ends_the_run Scenario.network_interrupted
                Scenario.isinstance Scenario.text_and_recording [] Scenario.cancelled
                eq_refl) as H.
  rewrite H; [split; reflexivity|discriminate|reflexivity..].
Defined.

(** A run with a text, the button pressed and a recording: two requests,
    to /tts and then to /transcribe/. *)
Lemma app_requests_witness :
  ∃ page',
    app (Scenario.service (Some Fake.abc_pipeline) Fake.asr_model) Scenario.isinstance
      Scenario.text_and_recording [] = (inr tt, page') ∧
    requests_of page'
      = [PostJson (lit "http://127.0.0.1:8000/tts")
           [(lit "text", lit "Hello world."); (lit "voice", lit "af_heart")] (Some 120);
         PostFiles (lit "http://127.0.0.1:8000/transcribe/") (lit "file")
           (lit "audio.wav") (Fake.ascii_bytes "RIFF") (lit "audio/wav")].
Proof.
  let v := eval vm_compute in
      (app (Scenario.service (Some Fake.abc_pipeline) Fake.asr_model) Scenario.isinstance
         Scenario.text_and_recording []) in
  match v with
  | (inr tt, ?page') =>
      exists page'; split; [reflexivity|];
      exact (app_requests (Scenario.service (Some Fake.abc_pipeline) Fake.asr_model)
               Scenario.isinstance Scenario.text_and_recording [] page' eq_refl)
  end.
Defined.

(** A recording and no click: the run still posts the recording. *)
Example recording_is_posted_at_every_run :
  requests_of (snd (app (Scenario.service None Fake.asr_model) Scenario.isinstance
                      Scenario.recording_only []))
    = [PostFiles (lit "http://127.0.0.1:8000/transcribe/") (lit "file")
         (lit "audio.wav") (Fake.ascii_bytes "RIFF") (lit "audio/wav")].
Proof. reflexivity. Qed.

(** With the network down each tab shows its own message. *)
Example network_down_messages :
  app Scenario.network_down Scenario.isinstance Scenario.text_and_recording []
    = (inr tt,
       [StPageConfig (lit "Text to Speech & Speech to Text") (lit "wide");
        StTitle (speaking_head ++ lit " AI Audio Services");
        StMarkdown (lit "Use this app to generate speech from text or transcribe audio to text.");
        StTabs [lit "Text to Speech"; lit "Speech to Text"];
        StHeader (lit "Text to Speech");
        StMarkdown (lit "Enter text and generate speech using the Kokoro TTS model.");
        StSpinner (lit "Generating audio...");
        RequestsPost (PostJson (lit "http://127.0.0.1:8000/tts")
                        [(lit "text", lit "Hello world."); (lit "voice", lit "af_heart")]
                        (Some 120));
        StError (lit "Could not connect to the API. Please ensure the server is running. Error: Connection refused");
        StHeader (lit "Speech to Text");
        StMarkdown (lit "Record your voice, and the FastAPI backend will transcribe it.");
        StAudio (Fake.ascii_bytes "RIFF") (lit "audio/wav");
        StMarkdown (lit "### Transcribing...");
        RequestsPost (PostFiles (lit "http://127.0.0.1:8000/transcribe/") (lit "file")
                        (lit "audio.wav") (Fake.ascii_bytes "RIFF") (lit "audio/wav"));
        StError (cross_mark ++ lit " **Connection Error:** Could not connect to the backend server. Make sure it's running.")]).
Proof. reflexivity. Qed.
